(** * GazeTracking: the per-eye analysis of [gaze_tracking/eye.py]

    A shallow embedding of the class [Eye]: the landmark lookup, the blinking
    ratio, the isolation of the eye in a masked copy of the frame, and the
    hand-over to the calibration manager and the pupil locator. The loop of
    [example.py] follows in [Module Example].

    Conventions of the embedding.
    - Python integers are [Z]; [/] is the true division of Python 3; the
      [np.int32] cast of the landmark region is written out as a wrap-around.
    - Python floats are idealised as real numbers: [math.hypot] is the
      Euclidean norm and [/] the real quotient, which raises
      [ZeroDivisionError] on a zero divisor.
    - numpy arrays live in an object store; a slice is a view on a buffer of
      that store, so that aliasing between the caller's frame, its copy and
      the cropped eye is explicit.
    - OpenCV, the calibration manager and the pupil locator are collaborators
      of the class and enter as parameters. *)

From Stdlib Require Import ZArith Reals Lra Lia List String.
From stdpp Require Import base list.
Import ListNotations.

Local Open Scope Z_scope.

(** ** Exceptions *)

Inductive exn : Set := IndexError | Cv2Error.

Inductive result (A : Type) : Type :=
| Ok (a : A)
| Raise (e : exn).
Arguments Ok {A} a.
Arguments Raise {A} e.

Definition rbind {A B} (r : result A) (k : A -> result B) : result B :=
  match r with
  | Ok a => k a
  | Raise e => Raise e
  end.

Fixpoint rmap {A B} (f : A -> result B) (l : list A) : result (list B) :=
  match l with
  | [] => Ok []
  | a :: l' => rbind (f a) (fun b => rbind (rmap f l') (fun bs => Ok (b :: bs)))
  end.

(** ** dlib: points and landmark sets *)

Record point : Set := Point { x : Z; y : Z }.

(** [dlib.full_object_detection]: the ordered parts of one detected face. *)
Abbreviation landmarks := (list point) (only parsing).

(** [landmarks.part(i)] raises [IndexError] past the last part. *)
Definition part (lm : landmarks) (i : nat) : result point :=
  match lm !! i with
  | Some p => Ok p
  | None => Raise IndexError
  end.

(** [points[i]] on a Python list. *)
Definition item (points : list nat) (i : nat) : result nat :=
  match points !! i with
  | Some p => Ok p
  | None => Raise IndexError
  end.

(** ** Floats *)

(** [math.hypot(a, b)] on two integers. *)
Definition hypot (a b : Z) : R := sqrt (IZR a * IZR a + IZR b * IZR b).

(** [a / b] on floats inside [try ... except ZeroDivisionError]: [None]
    stands for the handler's [ratio = None]. *)
Definition truediv_or_None (a b : R) : option R :=
  if Req_dec_T b 0 then None else Some (a / b)%R.

(** ** The class constants *)

Definition LEFT_EYE_POINTS : list nat := [36; 37; 38; 39; 40; 41]%nat.
Definition RIGHT_EYE_POINTS : list nat := [42; 43; 44; 45; 46; 47]%nat.

(** The binary64 nearest to an integer, ties to even: the integer itself
    below 2^53 in magnitude, its 53 leading bits rounded above. *)
Definition round53 (s : Z) : Z :=
  let m := Z.abs s in
  let k := Z.log2 m - 52 in
  if k <=? 0 then s
  else
    let q := m / 2 ^ k in
    let r := m mod 2 ^ k in
    let half := 2 ^ (k - 1) in
    let q' := if r <? half then q
              else if half <? r then q + 1
              else if Z.even q then q else q + 1 in
    Z.sgn s * (q' * 2 ^ k).

(** ** [Eye._middle_point]

    [int((p1.x + p2.x) / 2)]: the sum is an exact integer, [/] gives the
    binary64 nearest to half of it (the division of two integers is
    correctly rounded, and halving a binary64 is exact), and [int] truncates
    toward zero. Below 2^53 the sum is not rounded and the result is
    [Z.quot] of the sum; above, it is half of the rounded sum. *)
Definition _middle_point (p1 p2 : point) : Z * Z :=
  (Z.quot (round53 (x p1 + x p2)) 2, Z.quot (round53 (y p1 + y p2)) 2).

(** ** [Eye._blinking_ratio] *)

Definition _blinking_ratio (lm : landmarks) (points : list nat)
  : result (option R) :=
  rbind (item points 0) (fun i0 => rbind (part lm i0) (fun p0 =>
  rbind (item points 3) (fun i3 => rbind (part lm i3) (fun p3 =>
  rbind (item points 1) (fun i1 => rbind (part lm i1) (fun p1 =>
  rbind (item points 2) (fun i2 => rbind (part lm i2) (fun p2 =>
  rbind (item points 5) (fun i5 => rbind (part lm i5) (fun p5 =>
  rbind (item points 4) (fun i4 => rbind (part lm i4) (fun p4 =>
    let left := (x p0, y p0) in
    let right := (x p3, y p3) in
    let top := _middle_point p1 p2 in
    let bottom := _middle_point p5 p4 in
    let eye_width := hypot (fst left - fst right) (snd left - snd right) in
    let eye_height := hypot (fst top - fst bottom) (snd top - snd bottom) in
    Ok (truediv_or_None eye_width eye_height))))))))))))).

(** ** numpy arrays and the object store *)

(** One pixel: its channel values (one entry for a single-channel image). *)
Abbreviation pixel := (list Z) (only parsing).

(** The contents of an array of shape (height, width[, channels]): its rows. *)
Abbreviation ndarray := (list (list pixel)) (only parsing).

(** [a.shape[:2]] *)
Definition shape (a : ndarray) : Z * Z :=
  (Z.of_nat (length a),
   match a with
   | [] => 0
   | r :: _ => Z.of_nat (length r)
   end).

(** [np.zeros((height, width), np.uint8)] and [np.full((height, width), v, np.uint8)] *)
Definition np_full (height width v : Z) : ndarray :=
  replicate (Z.to_nat height) (replicate (Z.to_nat width) [v]).
Definition np_zeros (height width : Z) : ndarray := np_full height width 0.

(** [astype(np.int32)]: the value modulo 2^32, read as a signed word. *)
Definition to_int32 (z : Z) : Z := (z + 2 ^ 31) mod 2 ^ 32 - 2 ^ 31.

(** [np.min] and [np.max] of one column of the region. The column of an empty
    region does not exist: [region[:, 0]] raises [IndexError] (in [_isolate]
    [cv2.fillPoly] has refused an empty region before). *)
Definition np_min (l : list Z) : result Z :=
  match l with
  | [] => Raise IndexError
  | a :: l' => Ok (foldl Z.min a l')
  end.
Definition np_max (l : list Z) : result Z :=
  match l with
  | [] => Raise IndexError
  | a :: l' => Ok (foldl Z.max a l')
  end.

(** A bound of a basic slice on an axis of length [n]: a negative bound
    counts from the end, and every bound is clipped to the axis. *)
Definition clip_index (n i : Z) : Z :=
  if i <? 0 then Z.max 0 (i + n) else Z.min i n.

(** [start:stop] on an axis of length [n]: first index and number of items. *)
Definition slice (n start stop : Z) : nat * nat :=
  let a := clip_index n start in
  let b := clip_index n stop in
  (Z.to_nat a, Z.to_nat (b - a)).

(** The object store: array buffers by address. *)
Abbreviation loc := nat (only parsing).
Abbreviation heap := (list ndarray) (only parsing).

Definition read (h : heap) (l : loc) : ndarray := default [] (h !! l).

(** A basic slice [a[r0:r1, c0:c1]] is a view: it shares the buffer of [a]. *)
Record view : Set := View {
  buf : loc;
  row0 : nat; nrows : nat;
  col0 : nat; ncols : nat
}.

(** The pixels seen through a view. *)
Definition crop (a : ndarray) (r0 nr c0 nc : nat) : ndarray :=
  (fun r => take nc (drop c0 r)) <$> take nr (drop r0 a).
Definition view_pixels (h : heap) (v : view) : ndarray :=
  crop (read h (buf v)) (row0 v) (nrows v) (col0 v) (ncols v).

(** ** The Eye object *)

Record Eye (P : Type) : Type := mkEye {
  frame : option view;
  origin : option (Z * Z);
  center : option (R * R);
  pupil : option P;
  landmark_points : option (list (Z * Z));
  (** the attribute [blinking] exists only once [_analyze] has assigned it *)
  blinking : option (option R)
}.
Arguments mkEye {P}.
Arguments frame {P}.
Arguments origin {P}.
Arguments center {P}.
Arguments pupil {P}.
Arguments landmark_points {P}.
Arguments blinking {P}.

(** The object as [__init__] leaves it before calling [_analyze]. *)
Definition new_Eye {P} : Eye P := mkEye None None None None None None.

(** ** The collaborators *)

(** [calibration.Calibration] as the analyzer uses it. [evaluate] is handed
    the object [self.frame] and the store it lives in. *)
Class Calibration (C T : Type) : Type := {
  is_complete : C -> bool;
  evaluate : heap -> option view -> Z -> C -> C * heap;
  threshold : Z -> C -> T
}.

(** The calls the analyzer makes on its collaborators, in order. *)
Inductive call (T : Type) : Type :=
| CallIsComplete
| CallEvaluate (eye_frame : option view) (side : Z)
| CallThreshold (side : Z)
| CallPupil (eye_frame : option view) (t : T).
Arguments CallIsComplete {T}.
Arguments CallEvaluate {T}.
Arguments CallThreshold {T}.
Arguments CallPupil {T}.

Record world (C T : Type) : Type := World {
  store : heap;
  calibration : C;
  calls : list (call T)
}.
Arguments World {C T}.
Arguments store {C T}.
Arguments calibration {C T}.
Arguments calls {C T}.

(** ** Computations on the store that may raise *)

Definition M (W A : Type) : Type := W -> result A * W.

Definition ret {W A} (a : A) : M W A := fun w => (Ok a, w).

Definition bind {W A B} (m : M W A) (k : A -> M W B) : M W B :=
  fun w =>
    match m w with
    | (Ok a, w') => k a w'
    | (Raise e, w') => (Raise e, w')
    end.

Definition lift {W A} (r : result A) : M W A := fun w => (r, w).

Notation "'let*' a ':=' m 'in' k" := (bind m (fun a => k))
  (at level 10, a pattern, m at level 100, k at level 200, only parsing).

Section Analyzer.

Context {C T P : Type}.
Context {calibration_manager : Calibration C T}.

(** [cv2.fillPoly(img, [region], color)]: the new contents of [img]. *)
Variable cv2_fillPoly : ndarray -> list (Z * Z) -> list Z -> ndarray.

(** [cv2.bitwise_not(src, dst, mask=mask)]: the new contents of [dst]. *)
Variable cv2_bitwise_not : ndarray -> ndarray -> ndarray -> ndarray.

(** [Pupil(eye_frame, threshold)], handed [self.frame] and the store. *)
Variable Pupil : heap -> option view -> T -> P * heap.

Let W : Type := world C T.

Definition with_store (w : W) (h : heap) : W :=
  World h (calibration w) (calls w).

(** A fresh buffer holding [a]. *)
Definition alloc (a : ndarray) : M W loc :=
  fun w => (Ok (length (store w)), with_store w (store w ++ [a])).

Definition load (l : loc) : M W ndarray :=
  fun w => (Ok (read (store w) l), w).

Definition write (l : loc) (a : ndarray) : M W unit :=
  fun w => (Ok tt, with_store w (<[l := a]> (store w))).

Definition record (c : call T) : M W unit :=
  fun w => (Ok tt, World (store w) (calibration w) (calls w ++ [c])).

(** [frame.copy()] *)
Definition copy (l : loc) : M W loc := let* a := load l in alloc a.

(** [cv2.fillPoly] draws into the buffer it is given; it refuses a polygon
    without points with a [cv2.error]. *)
Definition fillPoly (img : loc) (region : list (Z * Z)) (color : list Z)
  : M W unit :=
  match region with
  | [] => lift (Raise Cv2Error)
  | _ :: _ => let* a := load img in write img (cv2_fillPoly a region color)
  end.

(** [cv2.bitwise_not] writes its destination and returns it. This is what
    OpenCV does when the destination has the size and type of the source, as
    the copy of a single-channel 8-bit frame has; given the copy of a frame
    of another type it would return a new array and leave the copy alone. *)
Definition bitwise_not (src dst mask : loc) : M W loc :=
  let* s := load src in let* d := load dst in let* m := load mask in
  let* _ := write dst (cv2_bitwise_not s d m) in
  ret dst.

(** [a[r0:r1, c0:c1]] *)
Definition subarray (a : loc) (r0 r1 c0 c1 : Z) : M W view :=
  let* img := load a in
  let '(height, width) := shape img in
  let '(i, n) := slice height r0 r1 in
  let '(j, m) := slice width c0 c1 in
  ret (View a i n j m).

(** The calls on the calibration manager and on the pupil locator. *)
Definition call_is_complete : M W bool :=
  let* _ := record CallIsComplete in
  fun w => (Ok (is_complete (calibration w)), w).

Definition call_evaluate (eye_frame : option view) (side : Z) : M W unit :=
  let* _ := record (CallEvaluate eye_frame side) in
  fun w =>
    let '(c, h) := evaluate (store w) eye_frame side (calibration w) in
    (Ok tt, World h c (calls w)).

Definition call_threshold (side : Z) : M W T :=
  let* _ := record (CallThreshold side) in
  fun w => (Ok (threshold side (calibration w)), w).

Definition call_Pupil (eye_frame : option view) (t : T) : M W P :=
  let* _ := record (CallPupil eye_frame t) in
  fun w =>
    let '(p, h) := Pupil (store w) eye_frame t in
    (Ok p, with_store w h).

(** [np.array([(landmarks.part(point).x, landmarks.part(point).y)
               for point in points]).astype(np.int32)] *)
Definition region_of (lm : landmarks) (points : list nat)
  : result (list (Z * Z)) :=
  rmap (fun point =>
          rbind (part lm point) (fun p => Ok (to_int32 (x p), to_int32 (y p))))
       points.

(** *** [Eye._isolate]

    The margin is added to [np.min] and [np.max] as integers: this is the
    arithmetic of NumPy 1, and that of NumPy 2 as long as the four bounds
    are [np.int32] values. *)
Definition _isolate (self : Eye P) (frame_ : loc) (lm : landmarks)
    (points : list nat) : M W (Eye P) :=
  let* region := lift (region_of lm points) in
  let self := mkEye (frame self) (origin self) (center self) (pupil self)
                    (Some region) (blinking self) in
  let* img := load frame_ in
  let '(height, width) := shape img in
  let* black_frame := alloc (np_zeros height width) in
  let* mask := alloc (np_full height width 255) in
  let* _ := fillPoly mask region [0; 255; 0] in
  let* dst := copy frame_ in
  let* eye := bitwise_not black_frame dst mask in
  let margin := 5 in
  let* lo_x := lift (np_min (map fst region)) in
  let min_x := lo_x - margin in
  let* hi_x := lift (np_max (map fst region)) in
  let max_x := hi_x + margin in
  let* lo_y := lift (np_min (map snd region)) in
  let min_y := lo_y - margin in
  let* hi_y := lift (np_max (map snd region)) in
  let max_y := hi_y + margin in
  let* v := subarray eye min_y max_y min_x max_x in
  let self := mkEye (Some v) (Some (min_x, min_y)) (center self) (pupil self)
                    (landmark_points self) (blinking self) in
  let '(height, width) := (Z.of_nat (nrows v), Z.of_nat (ncols v)) in
  ret (mkEye (frame self) (origin self)
             (Some (IZR width / 2, IZR height / 2)%R) (pupil self)
             (landmark_points self) (blinking self)).

(** *** [Eye._analyze]

    [analyze_points] is the body of [_analyze] once [points] is chosen. *)
Definition analyze_points (self : Eye P) (original_frame : loc)
    (lm : landmarks) (side : Z) (points : list nat) : M W (Eye P) :=
  let* ratio := lift (_blinking_ratio lm points) in
  let self := mkEye (frame self) (origin self) (center self) (pupil self)
                    (landmark_points self) (Some ratio) in
  let* self := _isolate self original_frame lm points in
  let* complete := call_is_complete in
  let* _ := (if negb complete then call_evaluate (frame self) side else ret tt) in
  let* t := call_threshold side in
  let* p := call_Pupil (frame self) t in
  ret (mkEye (frame self) (origin self) (center self) (Some p)
             (landmark_points self) (blinking self)).

Definition _analyze (self : Eye P) (original_frame : loc)
    (lm : landmarks) (side : Z) : M W (Eye P) :=
  if side =? 0 then analyze_points self original_frame lm side LEFT_EYE_POINTS
  else if side =? 1 then analyze_points self original_frame lm side RIGHT_EYE_POINTS
  else ret self.

(** *** [Eye.__init__] *)
Definition __init__ (original_frame : loc) (lm : landmarks) (side : Z)
  : M W (Eye P) :=
  _analyze new_Eye original_frame lm side.

End Analyzer.

(** ** Vocabulary of the specification *)

(** Distances between two pixel positions. *)
Definition distance (p q : Z * Z) : R :=
  sqrt ((IZR (fst p) - IZR (fst q)) ^ 2 + (IZR (snd p) - IZR (snd q)) ^ 2).
Definition horizontal_distance (p q : Z * Z) : R := Rabs (IZR (fst p) - IZR (fst q)).
Definition vertical_distance (p q : Z * Z) : R := Rabs (IZR (snd p) - IZR (snd q)).

Definition position (p : point) : Z * Z := (x p, y p).

(** [m] is the arithmetic mean of [a] and [b] truncated to an integer: the
    integer on the side of zero of (a + b) / 2, less than one away from it. *)
Definition truncated_mean (a b m : Z) : Prop :=
  2 * Z.abs m <= Z.abs (a + b) < 2 * Z.abs m + 2 /\ 0 <= m * (a + b).

(** [m] is the midpoint of [p] and [q] in integer pixels. *)
Definition midpoint (p q : point) (m : Z * Z) : Prop :=
  truncated_mean (x p) (x q) (fst m) /\ truncated_mean (y p) (y q) (snd m).

(** The landmarks of [lm] at the indices [points] are [ps]. *)
Definition selects (lm : landmarks) (points : list nat) (ps : list point) : Prop :=
  Forall2 (fun i p => lm !! i = Some p) points ps.

(** The pixel position a landmark has in the [np.int32] region. *)
Definition int32_position (p : point) : Z * Z := (to_int32 (x p), to_int32 (y p)).

(** [m] is the least (greatest) element of [l]. *)
Definition is_min (m : Z) (l : list Z) : Prop := In m l /\ Forall (fun z => m <= z) l.
Definition is_max (m : Z) (l : list Z) : Prop := In m l /\ Forall (fun z => z <= m) l.

(** Every row of the array has the width its shape reports. *)
Definition rectangular (a : ndarray) : bool :=
  forallb (fun r => Z.of_nat (length r) =? snd (shape a)) a.

(** The pixel of an array at row [i], column [j]. *)
Definition pixel_at (a : ndarray) (i j : nat) : option pixel :=
  match a !! i with
  | Some r => r !! j
  | None => None
  end.

(** The pixel at row [i], column [j], for coordinates that may fall outside. *)
Definition pixel_atZ (a : ndarray) (i j : Z) : option pixel :=
  if (0 <=? i) && (0 <=? j) then pixel_at a (Z.to_nat i) (Z.to_nat j) else None.

(** [c] is [a] cropped to the rows r0 <= r < r1 and the columns c0 <= c < c1:
    its pixel (i, j) is the pixel (r0 + i, c0 + j) of [a], and it has no
    pixel from outside the box. *)
Definition cropped_to (a c : ndarray) (r0 r1 c0 c1 : Z) : Prop :=
  forall i j : nat,
    pixel_at c i j =
      if (Z.of_nat i <? r1 - r0) && (Z.of_nat j <? c1 - c0)
      then pixel_atZ a (r0 + Z.of_nat i) (c0 + Z.of_nat j)
      else None.

(** A collaborator leaves alone every buffer that existed before the call,
    except the one behind the sub-image it is handed. *)
Definition keeps_other_buffers {A X : Type}
    (f : heap -> option view -> A -> X * heap) : Prop :=
  forall h v a l,
    (l < length h)%nat -> Some l <> buf <$> v ->
    snd (f h v a) !! l = h !! l.

(** ** The outcome of the isolation, in closed form *)

Section Masking.

Variable cv2_fillPoly : ndarray -> list (Z * Z) -> list Z -> ndarray.
Variable cv2_bitwise_not : ndarray -> ndarray -> ndarray -> ndarray.

(** The mask: set everywhere, cleared inside the eye contour. *)
Definition eye_mask (img : ndarray) (region : list (Z * Z)) : ndarray :=
  let '(height, width) := shape img in
  cv2_fillPoly (np_full height width 255) region [0; 255; 0].

(** The masked frame: the copy of the frame after [cv2.bitwise_not]. *)
Definition masked_frame (img : ndarray) (region : list (Z * Z)) : ndarray :=
  let '(height, width) := shape img in
  cv2_bitwise_not (np_zeros height width) img (eye_mask img region).

(** The buffers one isolation allocates, in order of allocation. *)
Definition isolation_buffers (img : ndarray) (region : list (Z * Z))
  : list ndarray :=
  let '(height, width) := shape img in
  [np_zeros height width; eye_mask img region; masked_frame img region].

End Masking.

(** The view [a[r0:r1, c0:c1]] on the buffer [l] that holds [a]. *)
Definition slice_view (l : loc) (a : ndarray) (r0 r1 c0 c1 : Z) : view :=
  View l (fst (slice (fst (shape a)) r0 r1)) (snd (slice (fst (shape a)) r0 r1))
         (fst (slice (snd (shape a)) c0 c1)) (snd (slice (snd (shape a)) c0 c1)).

(** [self.center] for a crop of the given size. *)
Definition center_of (v : view) : R * R :=
  (IZR (Z.of_nat (ncols v)) / 2, IZR (Z.of_nat (nrows v)) / 2)%R.

(** The ratio [_blinking_ratio] computes from the six contour points, by the
    role each of them plays. *)
Definition ratio_of (left_corner upper1 upper2 right_corner lower1 lower2 : point)
  : option R :=
  truediv_or_None
    (distance (position left_corner) (position right_corner))
    (distance (_middle_point upper1 upper2) (_middle_point lower1 lower2)).

(** The calibration step of [_analyze]: [evaluate] runs unless the manager
    reports completion. *)
Definition warm_up {C T} {calibration_manager : Calibration C T}
    (h : heap) (eye_frame : option view) (side : Z) (c : C) : C * heap :=
  if is_complete c then (c, h) else evaluate h eye_frame side c.

(** The calls of one analysis, given what [is_complete] answered and the
    threshold that was fetched. *)
Definition calls_of {T} (complete : bool) (eye_frame : option view) (side : Z)
    (t : T) : list (call T) :=
  [CallIsComplete]
  ++ (if complete then [] else [CallEvaluate eye_frame side])
  ++ [CallThreshold side; CallPupil eye_frame t].

(** The contour [_analyze] looks up for a side. *)
Definition contour (side : Z) (points : list nat) : Prop :=
  side = 0 /\ points = LEFT_EYE_POINTS \/ side = 1 /\ points = RIGHT_EYE_POINTS.

(** ** The calibration manager of the specification (section 4.3) *)

(** Modelled from the spec: the module [calibration] is not part of the
    sources at hand. Its state is one history of threshold readings per side. *)
Record CalibrationState : Set := mkCalibration {
  thresholds_left : list Z;
  thresholds_right : list Z
}.

(** Modelled from the spec: the fixed sample count, 20 evaluations. *)
Definition nb_frames : nat := 20.

(** Modelled from the spec: the history of one side. *)
Definition history (side : Z) (c : CalibrationState) : list Z :=
  if side =? 0 then thresholds_left c
  else if side =? 1 then thresholds_right c
  else [].

(** Modelled from the spec: a side has reached the sample count. *)
Definition side_complete (side : Z) (c : CalibrationState) : bool :=
  (nb_frames <=? length (history side c))%nat.

(** Modelled from the spec: [is_complete()] reports whether both sides have
    reached the sample count. *)
Definition spec_is_complete (c : CalibrationState) : bool :=
  side_complete 0 c && side_complete 1 c.

(** Modelled from the spec: a bounded queue, the oldest reading evicted first. *)
Definition push_reading (t : Z) (l : list Z) : list Z :=
  let l' := l ++ [t] in
  drop (length l' - nb_frames) l'.

(** Modelled from the spec: [evaluate(eye_image, side)] records the best
    threshold found for the image, if there is one, in the history of [side].
    The scan itself, [find_best_threshold], is a parameter. *)
Definition spec_evaluate (find_best_threshold : ndarray -> option Z)
    (h : heap) (eye_frame : option view) (side : Z) (c : CalibrationState)
  : CalibrationState * heap :=
  match eye_frame ≫= (fun v => find_best_threshold (view_pixels h v)) with
  | Some t =>
      (if side =? 0 then mkCalibration (push_reading t (thresholds_left c)) (thresholds_right c)
       else if side =? 1 then mkCalibration (thresholds_left c) (push_reading t (thresholds_right c))
       else c, h)
  | None => (c, h)
  end.

(** Modelled from the spec: [threshold(side)] is the average of the readings
    recorded for [side], undefined while there is none. *)
Definition spec_threshold (side : Z) (c : CalibrationState) : option Z :=
  match history side c with
  | [] => None
  | l => Some (Z.quot (foldr Z.add 0 l) (Z.of_nat (length l)))
  end.

(** Modelled from the spec: the calibration manager as a collaborator. *)
Definition spec_calibration (find_best_threshold : ndarray -> option Z)
  : Calibration CalibrationState (option Z) :=
  {| is_complete := spec_is_complete;
     evaluate := spec_evaluate find_best_threshold;
     threshold := spec_threshold |}.

(** ** Concrete collaborators and inputs, for running the analyzer *)

(** A stand-in for OpenCV's rasteriser: it paints the bounding box of the
    polygon with the first component of the colour. *)
Definition sample_fillPoly (img : ndarray) (region : list (Z * Z))
    (color : list Z) : ndarray :=
  let xs := map fst region in
  let ys := map snd region in
  let inside (i j : nat) :=
    existsb (fun v => Z.of_nat j <=? v) xs
    && existsb (fun v => v <=? Z.of_nat j) xs
    && existsb (fun v => Z.of_nat i <=? v) ys
    && existsb (fun v => v <=? Z.of_nat i) ys in
  imap (fun i r => imap (fun j p => if inside i j then take 1 color else p) r) img.

(** [cv2.bitwise_not] on arrays of one size: where the mask is set the
    destination takes the complement of the source, elsewhere it keeps its
    own pixel. *)
Definition sample_bitwise_not (src dst mask : ndarray) : ndarray :=
  zip_with (fun sd mr =>
              zip_with (fun (sp : pixel * pixel) (m : pixel) =>
                          if forallb (Z.eqb 0) m then snd sp
                          else map (fun v => Z.lxor v 255) (fst sp))
                       sd mr)
           (zip_with zip src dst) mask.

(** A pupil locator that reports the threshold it was given. *)
Definition sample_Pupil {T} (h : heap) (eye_frame : option view) (t : T)
  : T * heap := (t, h).

(** A scan that settles on the same threshold for every image. *)
Definition sample_scan (a : ndarray) : option Z := Some 50.

(** A uniformly grey frame of 40 rows and 60 columns. *)
Definition sample_frame : ndarray := np_full 40 60 128.

Definition sample_world {C T} (c : C) : world C T := World [sample_frame] c [].

(** A face of 68 landmarks with the given eye contours. *)
Definition face (left_eye right_eye : list point) : landmarks :=
  replicate 36 (Point 0 0) ++ left_eye ++ right_eye ++ replicate 20 (Point 0 0).

(** The eye of the scenario in section 8 of the specification. *)
Definition scenario_eye : list point :=
  [Point 36 10; Point 40 5; Point 44 5; Point 48 10; Point 44 14; Point 40 14].

(** The same contour mirrored in the vertical line through x = k / 2, listed
    again from its leftmost corner. *)
Definition mirrored_eye (k : Z) : list point :=
  [Point (k - 48) 10; Point (k - 44) 5; Point (k - 40) 5; Point (k - 36) 10;
   Point (k - 40) 14; Point (k - 44) 14].

(** An eye whose corners are not level. *)
Definition tilted_eye : list point :=
  [Point 30 20; Point 34 16; Point 38 16; Point 42 25; Point 38 24; Point 34 24].

(** An eye whose upper and lower lid meet. *)
Definition closed_eye : list point :=
  [Point 30 20; Point 34 20; Point 38 20; Point 42 20; Point 38 20; Point 34 20].

(** An eye whose lids meet, at coordinates beyond 2^53: the x-coordinates of
    the upper lid add up to 2^54 + 2, those of the lower lid to 2^54 + 3. *)
Definition far_eye : list point :=
  [Point (2 ^ 53 - 5) 0; Point (2 ^ 53 + 1) 0; Point (2 ^ 53 + 1) 0;
   Point (2 ^ 53 + 7) 0; Point (2 ^ 53 + 2) 0; Point (2 ^ 53 + 1) 0].

(** An eye three pixels from the left border of the frame. *)
Definition border_eye : list point :=
  [Point 3 20; Point 7 16; Point 11 16; Point 15 20; Point 11 24; Point 7 24].

(** A calibration in which the left side has its 20 readings and the right
    side has none yet. *)
Definition left_done : CalibrationState := mkCalibration (replicate 20 50) [].

(** A calibration without any reading. *)
Definition no_reading : CalibrationState := mkCalibration [] [].

(** The calibration manager of the specification with that scan. *)
Definition sample_calibration : Calibration CalibrationState (option Z) :=
  spec_calibration sample_scan.

(** The analyzer and the isolation with the concrete collaborators. *)
Definition sample_analyze
  : Eye (option Z) -> loc -> landmarks -> Z
    -> M (world CalibrationState (option Z)) (Eye (option Z)) :=
  _analyze (calibration_manager := sample_calibration)
           sample_fillPoly sample_bitwise_not sample_Pupil.

Definition sample_isolate
  : Eye (option Z) -> loc -> landmarks -> list nat
    -> M (world CalibrationState (option Z)) (Eye (option Z)) :=
  _isolate sample_fillPoly sample_bitwise_not.

(** The masked frame of the sample world for a contour. *)
Definition sample_masked (eye : list point) : ndarray :=
  masked_frame sample_fillPoly sample_bitwise_not sample_frame
               (map int32_position eye).

(** ** Vocabulary for the further properties *)

(** A landmark moved by (dx, dy). *)
Definition translate (dx dy : Z) (p : point) : point :=
  Point (x p + dx) (y p + dy).

(** A landmark with non-negative coordinates. *)
Definition nonnegative (p : point) : Prop := 0 <= x p /\ 0 <= y p.

(** A value an [np.int32] holds. *)
Definition in_int32 (z : Z) : Prop := - 2 ^ 31 <= z < 2 ^ 31.

(** A collaborator does not free buffers. *)
Definition never_shrinks {A X : Type}
    (f : heap -> option view -> A -> X * heap) : Prop :=
  forall h v a, (length h <= length (snd (f h v a)))%nat.

(** A landmark whose coordinates stay below 2^52 in magnitude: the sum of
    two such coordinates is a binary64. *)
Definition float_exact (p : point) : Prop :=
  Z.abs (x p) < 2 ^ 52 /\ Z.abs (y p) < 2 ^ 52.

(** An image of one 8-bit channel. *)
Definition single_channel_uint8 (a : ndarray) : bool :=
  forallb (forallb (fun px => match px with
                              | [v] => (0 <=? v) && (v <? 256)
                              | _ => false
                              end)) a.

(** The number of landmarks the contour of a side reaches into. *)
Definition landmarks_needed (side : Z) : nat :=
  if side =? 0 then 42%nat else 48%nat.

(** ** The demonstration loop of [example.py] *)

Module Example.

(** What the tracker reports once [gaze.refresh(frame)] has run. The class
    [GazeTracking] is not part of the sources at hand: its answers are data
    of each pass; [Coords] is whatever the two pupil queries return. *)
Record Gaze (Coords : Type) : Type := mkGaze {
  is_blinking : bool;
  is_right : bool;
  is_left : bool;
  is_center : bool;
  pupil_left_coords : Coords;
  pupil_right_coords : Coords
}.
Arguments mkGaze {Coords}.
Arguments is_blinking {Coords}.
Arguments is_right {Coords}.
Arguments is_left {Coords}.
Arguments is_center {Coords}.
Arguments pupil_left_coords {Coords}.
Arguments pupil_right_coords {Coords}.

(** The [if]/[elif] chain that chooses [text]. *)
Definition text {Coords} (gaze : Gaze Coords) : string :=
  if is_blinking gaze then "Blinking"%string
  else if is_right gaze then "Looking right"%string
  else if is_left gaze then "Looking left"%string
  else if is_center gaze then "Looking center"%string
  else ""%string.

(** The three [cv2.putText] calls of one pass: the string and where it goes.
    [str] is Python's [str] on what the pupil queries return. *)
Definition overlays {Coords} (str : Coords -> string) (gaze : Gaze Coords)
  : list (string * (Z * Z)) :=
  [(text gaze, (90, 60));
   (String.append "Left pupil:  " (str (pupil_left_coords gaze)), (90, 130));
   (String.append "Right pupil: " (str (pupil_right_coords gaze)), (90, 165))].

(** The [while True] loop over the passes the camera and the keyboard
    provide: each pass shows its overlays, then [cv2.waitKey(1)] gives a key
    and the loop breaks on 27. The result lists what was shown. *)
Fixpoint main {Coords} (str : Coords -> string)
    (passes : list (Gaze Coords * Z)) : list (list (string * (Z * Z))) :=
  match passes with
  | [] => []
  | (gaze, key) :: rest =>
      overlays str gaze :: (if key =? 27 then [] else main str rest)
  end.

End Example.

(** * Properties *)

(** ** The definitions at work *)

Example slice_inside : slice 60 31 53 = (31%nat, 22%nat).
Proof. reflexivity. Qed.

Example slice_clipped_stop : slice 60 50 70 = (50%nat, 10%nat).
Proof. reflexivity. Qed.

Example slice_negative_start : slice 60 (-2) 20 = (58%nat, 0%nat).
Proof. reflexivity. Qed.

Example to_int32_wraps : to_int32 36 = 36 /\ to_int32 (2 ^ 31) = - 2 ^ 31.
Proof. split; reflexivity. Qed.

Example _middle_point_truncates :
  _middle_point (Point 3 (-3)) (Point 4 (-4)) = (3, -3).
Proof. reflexivity. Qed.

Example _middle_point_rounds :
  _middle_point (Point (2 ^ 53 + 1) 0) (Point (2 ^ 53 + 1) 0) = (2 ^ 53, 0)
  /\ _middle_point (Point (2 ^ 53 + 1) 0) (Point (2 ^ 53 + 2) 0) = (2 ^ 53 + 2, 0).
Proof. split; reflexivity. Qed.

Example sample_masked_pixels :
  pixel_at (sample_masked scenario_eye) 10 40 = Some [128]
  /\ pixel_at (sample_masked scenario_eye) 10 30 = Some [255]
  /\ shape (sample_masked scenario_eye) = (40, 60).
Proof. by vm_compute. Qed.

Example left_done_is_not_complete :
  spec_is_complete left_done = false
  /\ spec_is_complete (mkCalibration (replicate 20 50) (replicate 20 60)) = true.
Proof. split; reflexivity. Qed.

Example push_reading_evicts_oldest :
  push_reading 7 (replicate 20 50) = replicate 19 50 ++ [7].
Proof. reflexivity. Qed.

(** ** Integers and floats *)

Lemma truncated_mean_quot (a b : Z) : truncated_mean a b (Z.quot (a + b) 2).
Proof.
  unfold truncated_mean.
  pose proof (Z.quot_rem' (a + b) 2) as E.
  destruct (Z_le_gt_dec 0 (a + b)) as [Hs | Hs].
  - pose proof (Z.rem_bound_pos (a + b) 2 Hs ltac:(lia)).
    pose proof (Z.quot_pos (a + b) 2 Hs ltac:(lia)). split; [lia | nia].
  - pose proof (Z.rem_bound_pos_neg (a + b) 2 ltac:(lia) ltac:(lia)).
    assert ((a + b) ÷ 2 <= 0) by lia. split; [lia | nia].
Qed.

Lemma truncated_mean_unique (a b m : Z) :
  truncated_mean a b m -> m = Z.quot (a + b) 2.
Proof.
  intros [[H1 H2] H3].
  pose proof (truncated_mean_quot a b) as [[Q1 Q2] Q3].
  nia.
Qed.

Lemma round53_small (s : Z) : Z.abs s < 2 ^ 53 -> round53 s = s.
Proof.
  intros H. unfold round53.
  destruct (Z.leb_spec (Z.log2 (Z.abs s) - 52) 0) as [_ | Hk]; [reflexivity |].
  exfalso. destruct (Z.eq_dec (Z.abs s) 0) as [E | E].
  - rewrite E in Hk. cbn in Hk. lia.
  - assert (Z.log2 (Z.abs s) < 53) by (apply Z.log2_lt_pow2; lia). lia.
Qed.

(** Below 2^52 the middle point is the truncated mean. *)
Lemma _middle_point_exact (p q : point) :
  float_exact p -> float_exact q ->
  _middle_point p q = (Z.quot (x p + x q) 2, Z.quot (y p + y q) 2).
Proof.
  intros [Hpx Hpy] [Hqx Hqy]. unfold _middle_point.
  by rewrite !round53_small by lia.
Qed.

Lemma midpoint_middle_point (p q : point) (m : Z * Z) :
  float_exact p -> float_exact q ->
  midpoint p q m <-> m = _middle_point p q.
Proof.
  intros Hp Hq. rewrite (_middle_point_exact p q Hp Hq).
  unfold midpoint. destruct m as [mx my]; cbn [fst snd]. split.
  - intros [Hx Hy].
    by rewrite (truncated_mean_unique _ _ _ Hx), (truncated_mean_unique _ _ _ Hy).
  - intros [= -> ->]. split; apply truncated_mean_quot.
Qed.

Lemma hypot_distance (p q : Z * Z) :
  hypot (fst p - fst q) (snd p - snd q) = distance p q.
Proof.
  unfold hypot, distance. rewrite !minus_IZR. f_equal. ring.
Qed.

Lemma hypot_zero (a b : Z) : hypot a b = 0%R <-> a = 0 /\ b = 0.
Proof.
  unfold hypot. split.
  - intros H. apply sqrt_eq_0 in H.
    + pose proof (Rle_0_sqr (IZR a)) as Ha. pose proof (Rle_0_sqr (IZR b)) as Hb.
      unfold Rsqr in Ha, Hb.
      assert (IZR a * IZR a = 0)%R as Ea by lra.
      assert (IZR b * IZR b = 0)%R as Eb by lra.
      apply Rmult_integral in Ea, Eb.
      split; apply eq_IZR; tauto.
    + pose proof (Rle_0_sqr (IZR a)). pose proof (Rle_0_sqr (IZR b)).
      unfold Rsqr in *. lra.
  - intros [-> ->]. rewrite Rmult_0_l, Rplus_0_l. apply sqrt_0.
Qed.

Lemma distance_zero (p q : Z * Z) : distance p q = 0%R <-> p = q.
Proof.
  rewrite <- hypot_distance, hypot_zero.
  destruct p, q; cbn [fst snd]. split.
  - intros [? ?]. f_equal; lia.
  - intros [= -> ->]. lia.
Qed.

(** The square root of a perfect square, as the concrete scenarios need it. *)
Lemma hypot_square (a b c : Z) : 0 <= c -> a * a + b * b = c * c -> hypot a b = IZR c.
Proof.
  intros Hc E. unfold hypot.
  rewrite <- !mult_IZR, <- plus_IZR, E, mult_IZR.
  apply sqrt_square. by apply IZR_le.
Qed.

Lemma distance_square (p q : Z * Z) (c : Z) :
  0 <= c ->
  (fst p - fst q) * (fst p - fst q) + (snd p - snd q) * (snd p - snd q) = c * c ->
  distance p q = IZR c.
Proof. intros Hc E. rewrite <- hypot_distance. by apply hypot_square. Qed.

Lemma horizontal_distance_abs (p q : Z * Z) :
  horizontal_distance p q = IZR (Z.abs (fst p - fst q)).
Proof. unfold horizontal_distance. by rewrite <- minus_IZR, abs_IZR. Qed.

Lemma vertical_distance_abs (p q : Z * Z) :
  vertical_distance p q = IZR (Z.abs (snd p - snd q)).
Proof. unfold vertical_distance. by rewrite <- minus_IZR, abs_IZR. Qed.

Lemma quot_even (z : Z) : Z.quot (z * 2) 2 = z.
Proof. by apply Z.quot_mul. Qed.

Lemma to_int32_id (z : Z) : - 2 ^ 31 <= z < 2 ^ 31 -> to_int32 z = z.
Proof. intros H. unfold to_int32. rewrite Z.mod_small; lia. Qed.

(** Landmarks within the range of [np.int32] keep their coordinates. *)
Lemma int32_position_id (p : point) :
  - 2 ^ 31 <= x p < 2 ^ 31 -> - 2 ^ 31 <= y p < 2 ^ 31 ->
  int32_position p = position p.
Proof.
  intros Hx Hy. unfold int32_position, position.
  by rewrite !to_int32_id.
Qed.

Lemma truediv_nonzero (a b : R) : b <> 0%R -> truediv_or_None a b = Some (a / b)%R.
Proof. intros H. unfold truediv_or_None. by destruct (Req_dec_T b 0). Qed.

Lemma truediv_zero (a : R) : truediv_or_None a 0 = None.
Proof. unfold truediv_or_None. by destruct (Req_dec_T 0 0). Qed.

(** ** Minimum and maximum of a column *)

Lemma foldl_min_spec (l : list Z) (a : Z) :
  (foldl Z.min a l = a \/ In (foldl Z.min a l) l)
  /\ foldl Z.min a l <= a /\ Forall (fun z => foldl Z.min a l <= z) l.
Proof.
  revert a. induction l as [| b l IH]; intros a; cbn [foldl].
  - split; [by left |]. split; [lia | constructor].
  - destruct (IH (Z.min a b)) as (Hin & Hle & Hall). split; [| split].
    + destruct Hin as [E | Hin]; [| right; by right].
      rewrite E. destruct (Z.min_spec a b) as [[_ ->] | [_ ->]]; [by left | right; by left].
    + lia.
    + constructor; [lia | exact Hall].
Qed.

Lemma foldl_max_spec (l : list Z) (a : Z) :
  (foldl Z.max a l = a \/ In (foldl Z.max a l) l)
  /\ a <= foldl Z.max a l /\ Forall (fun z => z <= foldl Z.max a l) l.
Proof.
  revert a. induction l as [| b l IH]; intros a; cbn [foldl].
  - split; [by left |]. split; [lia | constructor].
  - destruct (IH (Z.max a b)) as (Hin & Hle & Hall). split; [| split].
    + destruct Hin as [E | Hin]; [| right; by right].
      rewrite E. destruct (Z.max_spec a b) as [[_ ->] | [_ ->]]; [right; by left | by left].
    + lia.
    + constructor; [lia | exact Hall].
Qed.

Lemma is_min_unique (m m' : Z) (l : list Z) : is_min m l -> is_min m' l -> m = m'.
Proof.
  intros [I1 A1] [I2 A2]. rewrite Forall_forall in A1, A2.
  apply list_elem_of_In in I1, I2.
  pose proof (A1 _ I2). pose proof (A2 _ I1). lia.
Qed.

Lemma is_max_unique (m m' : Z) (l : list Z) : is_max m l -> is_max m' l -> m = m'.
Proof.
  intros [I1 A1] [I2 A2]. rewrite Forall_forall in A1, A2.
  apply list_elem_of_In in I1, I2.
  pose proof (A1 _ I2). pose proof (A2 _ I1). lia.
Qed.

Lemma np_min_is_min (l : list Z) (m : Z) : is_min m l -> np_min l = Ok m.
Proof.
  intros Hm. destruct l as [| a l]; [by destruct Hm as [[] _] |].
  cbn [np_min]. f_equal. symmetry. apply (is_min_unique _ _ (a :: l) Hm).
  destruct (foldl_min_spec l a) as (Hin & Hle & Hall). split.
  - destruct Hin as [-> | Hin]; [by left | by right].
  - by constructor.
Qed.

Lemma np_max_is_max (l : list Z) (m : Z) : is_max m l -> np_max l = Ok m.
Proof.
  intros Hm. destruct l as [| a l]; [by destruct Hm as [[] _] |].
  cbn [np_max]. f_equal. symmetry. apply (is_max_unique _ _ (a :: l) Hm).
  destruct (foldl_max_spec l a) as (Hin & Hle & Hall). split.
  - destruct Hin as [-> | Hin]; [by left | by right].
  - by constructor.
Qed.

(** ** Landmark lookup *)

Lemma parts_exist (lm : landmarks) (n i : nat) :
  (n <= length lm)%nat -> (i < n)%nat -> exists p, lm !! i = Some p.
Proof. intros Hn Hi. apply lookup_lt_is_Some. lia. Qed.

Lemma selects_six (lm : landmarks) (i0 i1 i2 i3 i4 i5 : nat) (ps : list point) :
  selects lm [i0; i1; i2; i3; i4; i5] ps ->
  exists p0 p1 p2 p3 p4 p5,
    ps = [p0; p1; p2; p3; p4; p5]
    /\ lm !! i0 = Some p0 /\ lm !! i1 = Some p1 /\ lm !! i2 = Some p2
    /\ lm !! i3 = Some p3 /\ lm !! i4 = Some p4 /\ lm !! i5 = Some p5.
Proof.
  unfold selects. intros H.
  repeat match goal with
         | H : Forall2 _ (_ :: _) _ |- _ => inversion H; clear H; subst
         | H : Forall2 _ [] _ |- _ => inversion H; clear H; subst
         end.
  repeat eexists; eauto.
Qed.

Lemma selects_exists (lm : landmarks) (points : list nat) :
  Forall (fun i => (i < length lm)%nat) points -> exists ps, selects lm points ps.
Proof.
  unfold selects. induction 1 as [| i points Hi _ [ps IH]].
  - exists []. constructor.
  - destruct (parts_exist lm (length lm) i ltac:(lia) Hi) as [p Hp].
    exists (p :: ps). by constructor.
Qed.

Lemma region_of_selects (lm : landmarks) (points : list nat) (ps : list point) :
  selects lm points ps -> region_of lm points = Ok (map int32_position ps).
Proof.
  unfold selects, region_of. induction 1 as [| i p points ps Hp _ IH]; [done |].
  cbn [rmap map]. unfold part at 1. rewrite Hp. cbn [rbind].
  by rewrite IH.
Qed.

Lemma _blinking_ratio_selects (lm : landmarks) (i0 i1 i2 i3 i4 i5 : nat)
    (p0 p1 p2 p3 p4 p5 : point) :
  selects lm [i0; i1; i2; i3; i4; i5] [p0; p1; p2; p3; p4; p5] ->
  _blinking_ratio lm [i0; i1; i2; i3; i4; i5] = Ok (ratio_of p0 p1 p2 p3 p5 p4).
Proof.
  intros H. apply selects_six in H
    as (? & ? & ? & ? & ? & ? & [= <- <- <- <- <- <-] & E0 & E1 & E2 & E3 & E4 & E5).
  unfold _blinking_ratio, item, part. cbn [lookup list_lookup rbind].
  rewrite E0, E1, E2, E3, E4, E5. cbn [rbind].
  by rewrite !hypot_distance.
Qed.

(** A landmark set too short for the contour: the ratio raises, and nothing
    else has happened by then. *)
Lemma _blinking_ratio_raises (lm : landmarks) (i0 i1 i2 i3 i4 i5 : nat) :
  (forall ps, ~ selects lm [i0; i1; i2; i3; i4; i5] ps) ->
  _blinking_ratio lm [i0; i1; i2; i3; i4; i5] = Raise IndexError.
Proof.
  intros H. unfold _blinking_ratio, item, part. cbn [lookup list_lookup rbind].
  destruct (lm !! i0) as [p0 |] eqn:E0; [| done].
  destruct (lm !! i3) as [p3 |] eqn:E3; [| done].
  destruct (lm !! i1) as [p1 |] eqn:E1; [| done].
  destruct (lm !! i2) as [p2 |] eqn:E2; [| done].
  destruct (lm !! i5) as [p5 |] eqn:E5; [| done].
  destruct (lm !! i4) as [p4 |] eqn:E4; [| done].
  exfalso. apply (H [p0; p1; p2; p3; p4; p5]). unfold selects.
  repeat constructor; assumption.
Qed.

(** ** The object store *)

Lemma read_old (h : heap) (bs : list ndarray) (l : loc) :
  (l < length h)%nat -> read (h ++ bs) l = read h l.
Proof. intros Hl. unfold read. by rewrite lookup_app_l. Qed.

Lemma read_new (h : heap) (a : ndarray) : read (h ++ [a]) (length h) = a.
Proof. unfold read. rewrite lookup_app_r by lia. by rewrite Nat.sub_diag. Qed.

Lemma write_new (h : heap) (a b : ndarray) : <[length h := b]> (h ++ [a]) = h ++ [b].
Proof. rewrite insert_app_r_alt by lia. by rewrite Nat.sub_diag. Qed.

(** ** Slices *)

Lemma slice_lookup {A} (l : list A) (n a b : Z) (k : nat) :
  n = Z.of_nat (length l) -> 0 <= a -> a <= b ->
  take (snd (slice n a b)) (drop (fst (slice n a b)) l) !! k
  = if Z.of_nat k <? b - a then l !! Z.to_nat (a + Z.of_nat k) else None.
Proof.
  intros Hn Ha Hab. unfold slice, clip_index.
  destruct (Z.ltb_spec a 0); [lia |]. destruct (Z.ltb_spec b 0); [lia |].
  cbn [fst snd].
  destruct (Z.ltb_spec (Z.of_nat k) (b - a)).
  - destruct (decide (k < Z.to_nat (Z.min b n - Z.min a n))%nat) as [Hk | Hk].
    + rewrite lookup_take_lt by exact Hk. rewrite lookup_drop. f_equal. lia.
    + rewrite lookup_take_ge by lia. symmetry. apply lookup_ge_None. lia.
  - apply lookup_take_ge. lia.
Qed.

Lemma pixel_at_crop (a : ndarray) (r0 nr c0 nc i j : nat) :
  pixel_at (crop a r0 nr c0 nc) i j
  = match take nr (drop r0 a) !! i with
    | Some r => take nc (drop c0 r) !! j
    | None => None
    end.
Proof.
  unfold pixel_at, crop. rewrite list_lookup_fmap.
  by destruct (take nr (drop r0 a) !! i).
Qed.

Lemma rectangular_row (a : ndarray) (r : list pixel) (i : nat) :
  rectangular a = true -> a !! i = Some r -> snd (shape a) = Z.of_nat (length r).
Proof.
  unfold rectangular. rewrite forallb_forall. intros Hall Hr.
  specialize (Hall r). rewrite <- list_elem_of_In in Hall.
  symmetry. apply Z.eqb_eq, Hall. by eapply list_elem_of_lookup_2.
Qed.

Lemma read_buffers (h : heap) (a b c : ndarray) :
  read (h ++ [a; b; c]) (length h + 2) = c.
Proof.
  unfold read. rewrite lookup_app_r by lia.
  by replace (length h + 2 - length h)%nat with 2%nat by lia.
Qed.

Section AnalyzerFacts.

Context {C T P : Type}.
Context {calibration_manager : Calibration C T}.
Variable cv2_fillPoly : ndarray -> list (Z * Z) -> list Z -> ndarray.
Variable cv2_bitwise_not : ndarray -> ndarray -> ndarray -> ndarray.
Variable Pupil : heap -> option view -> T -> P * heap.

Local Abbreviation masked := (masked_frame cv2_fillPoly cv2_bitwise_not).
Local Abbreviation buffers := (isolation_buffers cv2_fillPoly cv2_bitwise_not).
Local Abbreviation isolate := (_isolate (C := C) (T := T) cv2_fillPoly cv2_bitwise_not).

(** The isolation in closed form: three fresh buffers, the last of which
    holds the masked frame, and a view on that one. *)
Lemma _isolate_spec (self : Eye P) (f : loc) (lm : landmarks)
    (points : list nat) (region : list (Z * Z))
    (lo_x hi_x lo_y hi_y : Z) (w : world C T) :
  region_of lm points = Ok region ->
  is_min lo_x (map fst region) -> is_max hi_x (map fst region) ->
  is_min lo_y (map snd region) -> is_max hi_y (map snd region) ->
  (f < length (store w))%nat ->
  let img := read (store w) f in
  let v := slice_view (length (store w) + 2) (masked img region)
                      (lo_y - 5) (hi_y + 5) (lo_x - 5) (hi_x + 5) in
  isolate self f lm points w =
    (Ok (mkEye (Some v) (Some (lo_x - 5, lo_y - 5)) (Some (center_of v))
               (pupil self) (Some region) (blinking self)),
     World (store w ++ buffers img region) (calibration w) (calls w)).
Proof.
  intros Hregion Hlx Hhx Hly Hhy Hf img v.
  destruct w as [h c l]. cbn [store calibration calls] in *.
  assert (forall (mask : loc) (color : list Z),
            fillPoly (C := C) (T := T) cv2_fillPoly mask region color
            = bind (load mask)
                   (fun a => write mask (cv2_fillPoly a region color))) as Hfill.
  { intros mask color. destruct region; [by destruct Hlx as [[] _] | reflexivity]. }
  unfold _isolate. unfold bind at 1, lift at 1. rewrite Hregion.
  cbn -[np_zeros np_full slice Z.sub Z.add IZR Rdiv read np_min np_max fillPoly].
  rewrite Hfill.
  cbn -[np_zeros np_full slice Z.sub Z.add IZR Rdiv read np_min np_max].
  fold img.
  repeat (rewrite ?read_new, ?write_new;
          rewrite ?read_old by (rewrite ?length_app; cbn [length]; lia);
          fold img).
  rewrite (np_min_is_min _ _ Hlx), (np_max_is_max _ _ Hhx),
          (np_min_is_min _ _ Hly), (np_max_is_max _ _ Hhy).
  unfold subarray, load, ret, lift, with_store, bind. cbn [store calibration calls].
  rewrite read_new.
  replace (length ((h ++ [np_zeros (Z.of_nat (length img))
                            match img with [] => 0 | r :: _ => Z.of_nat (length r) end])
                   ++ [cv2_fillPoly (np_full (Z.of_nat (length img))
                            match img with [] => 0 | r :: _ => Z.of_nat (length r) end 255)
                            region [0; 255; 0]]))
    with (length h + 2)%nat by (rewrite !length_app; cbn [length]; lia).
  rewrite <- !app_assoc. cbn [app].
  subst v. unfold slice_view, center_of, isolation_buffers, masked_frame, eye_mask.
  cbn [shape fst snd ncols nrows].
  destruct (slice _ (lo_y - 5) _) as [i n] eqn:Er.
  destruct (slice _ (lo_x - 5) _) as [j m] eqn:Ec.
  reflexivity.
Qed.

Lemma column_min_exists (l : list Z) : l <> [] -> exists m, is_min m l.
Proof.
  destruct l as [| a l]; [done | intros _].
  destruct (foldl_min_spec l a) as (Hin & Hle & Hall).
  exists (foldl Z.min a l). split.
  - destruct Hin as [-> | Hin]; [by left | by right].
  - by constructor.
Qed.

Lemma column_max_exists (l : list Z) : l <> [] -> exists m, is_max m l.
Proof.
  destruct l as [| a l]; [done | intros _].
  destruct (foldl_max_spec l a) as (Hin & Hle & Hall).
  exists (foldl Z.max a l). split.
  - destruct Hin as [-> | Hin]; [by left | by right].
  - by constructor.
Qed.

Local Abbreviation analyze_points_ :=
  (analyze_points (C := C) (T := T) cv2_fillPoly cv2_bitwise_not Pupil).

(** The analysis of one eye in closed form. *)
Lemma analyze_points_spec (self : Eye P) (f : loc) (lm : landmarks) (side : Z)
    (i0 i1 i2 i3 i4 i5 : nat) (p0 p1 p2 p3 p4 p5 : point)
    (lo_x hi_x lo_y hi_y : Z) (w : world C T) :
  selects lm [i0; i1; i2; i3; i4; i5] [p0; p1; p2; p3; p4; p5] ->
  let region := map int32_position [p0; p1; p2; p3; p4; p5] in
  is_min lo_x (map fst region) -> is_max hi_x (map fst region) ->
  is_min lo_y (map snd region) -> is_max hi_y (map snd region) ->
  (f < length (store w))%nat ->
  let img := read (store w) f in
  let v := slice_view (length (store w) + 2) (masked img region)
                      (lo_y - 5) (hi_y + 5) (lo_x - 5) (hi_x + 5) in
  let c := calibration w in
  let cal := warm_up (store w ++ buffers img region) (Some v) side c in
  let t := threshold side (fst cal) in
  let pup := Pupil (snd cal) (Some v) t in
  analyze_points_ self f lm side [i0; i1; i2; i3; i4; i5] w =
    (Ok (mkEye (Some v) (Some (lo_x - 5, lo_y - 5)) (Some (center_of v))
               (Some (fst pup)) (Some region)
               (Some (ratio_of p0 p1 p2 p3 p5 p4))),
     World (snd pup) (fst cal)
           (calls w ++ calls_of (is_complete c) (Some v) side t)).
Proof.
  intros Hsel region Hlx Hhx Hly Hhy Hf img v c cal t pup.
  unfold analyze_points. unfold bind at 1, lift at 1.
  rewrite (_blinking_ratio_selects _ _ _ _ _ _ _ _ _ _ _ _ _ Hsel).
  unfold bind at 1.
  erewrite _isolate_spec by (try apply region_of_selects; eassumption).
  fold region img v. destruct w as [h c0 l]. cbn [store calibration calls] in *.
  subst c. unfold call_is_complete, call_evaluate, call_threshold, call_Pupil,
    record, ret, with_store, bind.
  cbn [store calibration calls frame origin center landmark_points blinking pupil].
  subst pup t cal. unfold warm_up, calls_of.
  destruct (is_complete c0); cbn [negb store calibration calls fst snd].
  - destruct (Pupil _ _ _) as [p h3]. cbn [fst snd].
    rewrite <- !app_assoc. reflexivity.
  - destruct (evaluate _ _ _ _) as [c2 h2]. cbn [fst snd store calibration calls].
    destruct (Pupil _ _ _) as [p h3]. cbn [fst snd store calibration calls].
    rewrite <- !app_assoc. reflexivity.
Qed.

Local Abbreviation analyze_ :=
  (_analyze (C := C) (T := T) cv2_fillPoly cv2_bitwise_not Pupil).
Local Abbreviation init_ :=
  (__init__ (C := C) (T := T) cv2_fillPoly cv2_bitwise_not Pupil).

(** A valid side with a complete contour: the analysis returns, and this
    is what it returns. *)
Lemma _analyze_valid (self : Eye P) (f : loc) (lm : landmarks) (side : Z)
    (points : list nat) (p0 p1 p2 p3 p4 p5 : point) (w : world C T) :
  contour side points ->
  selects lm points [p0; p1; p2; p3; p4; p5] ->
  (f < length (store w))%nat ->
  exists (v : view) (o : Z * Z),
    buf v = (length (store w) + 2)%nat /\
    let region := map int32_position [p0; p1; p2; p3; p4; p5] in
    let h1 := store w ++ buffers (read (store w) f) region in
    let cal := warm_up h1 (Some v) side (calibration w) in
    let t := threshold side (fst cal) in
    let pup := Pupil (snd cal) (Some v) t in
    analyze_ self f lm side w =
      (Ok (mkEye (Some v) (Some o) (Some (center_of v)) (Some (fst pup))
                 (Some region) (Some (ratio_of p0 p1 p2 p3 p5 p4))),
       World (snd pup) (fst cal)
             (calls w ++ calls_of (is_complete (calibration w)) (Some v) side t)).
Proof.
  intros Hside Hsel Hf.
  set (region := map int32_position [p0; p1; p2; p3; p4; p5]).
  destruct (column_min_exists (map fst region) ltac:(done)) as [lo_x Hlx].
  destruct (column_max_exists (map fst region) ltac:(done)) as [hi_x Hhx].
  destruct (column_min_exists (map snd region) ltac:(done)) as [lo_y Hly].
  destruct (column_max_exists (map snd region) ltac:(done)) as [hi_y Hhy].
  eexists (slice_view _ _ _ _ _ _), _. split; [reflexivity |].
  unfold _analyze.
  destruct Hside as [[-> ->] | [-> ->]]; cbn [Z.eqb];
    by apply analyze_points_spec.
Qed.

Lemma _middle_point_comm (p q : point) : _middle_point p q = _middle_point q p.
Proof. unfold _middle_point. by rewrite (Z.add_comm (x p)), (Z.add_comm (y p)). Qed.

(** ** The blinking ratio *)

(** C1 (amended): for every landmark set with coordinates below 2^52 in
    magnitude whose upper-lid and lower-lid midpoints do not coincide,
    [_analyze] sets the blinking ratio to the Euclidean distance between
    contour points 0 and 3 divided by the Euclidean distance between the
    midpoint of the two upper-lid points and the midpoint of the two
    lower-lid points, each midpoint being the arithmetic mean truncated to
    integer pixels. *)
Theorem blinking_ratio_is_width_over_height
    (self : Eye P) (f : loc) (lm : landmarks) (side : Z) (points : list nat)
    (p0 p1 p2 p3 p4 p5 : point) (top bottom : Z * Z) (w : world C T) :
  contour side points ->
  selects lm points [p0; p1; p2; p3; p4; p5] ->
  Forall float_exact [p0; p1; p2; p3; p4; p5] ->
  midpoint p1 p2 top -> midpoint p4 p5 bottom ->
  top <> bottom ->
  (f < length (store w))%nat ->
  exists eye w',
    analyze_ self f lm side w = (Ok eye, w')
    /\ blinking eye
       = Some (Some (distance (position p0) (position p3) / distance top bottom)%R).
Proof.
  intros Hside Hsel Hexact Htop Hbottom Hne Hf.
  apply Forall_cons_1 in Hexact as [_ Hexact].
  apply Forall_cons_1 in Hexact as [H1 Hexact].
  apply Forall_cons_1 in Hexact as [H2 Hexact].
  apply Forall_cons_1 in Hexact as [_ Hexact].
  apply Forall_cons_1 in Hexact as [H4 Hexact].
  apply Forall_cons_1 in Hexact as [H5 _].
  destruct (_analyze_valid self f lm side points _ _ _ _ _ _ w Hside Hsel Hf)
    as (v & o & _ & E).
  cbv zeta in E. rewrite E. do 2 eexists. split; [reflexivity |].
  cbn [blinking]. do 2 f_equal.
  apply midpoint_middle_point in Htop, Hbottom; try assumption.
  subst top bottom.
  unfold ratio_of. rewrite (_middle_point_comm p5 p4).
  apply truediv_nonzero. by rewrite distance_zero.
Qed.

(** C2 (amended): for every landmark set with coordinates below 2^52 in
    magnitude where the upper-lid midpoint and the lower-lid midpoint
    coincide, the blinking ratio computation returns the undefined value
    instead of raising, and [_analyze] completes with that value as the
    blinking ratio. *)
Theorem coinciding_midpoints_give_no_ratio
    (self : Eye P) (f : loc) (lm : landmarks) (side : Z) (points : list nat)
    (p0 p1 p2 p3 p4 p5 : point) (m : Z * Z) (w : world C T) :
  contour side points ->
  selects lm points [p0; p1; p2; p3; p4; p5] ->
  Forall float_exact [p0; p1; p2; p3; p4; p5] ->
  midpoint p1 p2 m -> midpoint p4 p5 m ->
  (f < length (store w))%nat ->
  _blinking_ratio lm points = Ok None
  /\ exists eye w',
       analyze_ self f lm side w = (Ok eye, w') /\ blinking eye = Some None.
Proof.
  intros Hside Hsel Hexact Htop Hbottom Hf.
  apply Forall_cons_1 in Hexact as [_ Hexact].
  apply Forall_cons_1 in Hexact as [H1 Hexact].
  apply Forall_cons_1 in Hexact as [H2 Hexact].
  apply Forall_cons_1 in Hexact as [_ Hexact].
  apply Forall_cons_1 in Hexact as [H4 Hexact].
  apply Forall_cons_1 in Hexact as [H5 _].
  assert (ratio_of p0 p1 p2 p3 p5 p4 = None) as Hnone.
  { apply midpoint_middle_point in Htop, Hbottom; try assumption.
    unfold ratio_of. rewrite (_middle_point_comm p5 p4), <- Htop, <- Hbottom.
    replace (distance m m) with 0%R by (symmetry; by apply distance_zero).
    apply truediv_zero. }
  split.
  - destruct Hside as [[_ ->] | [_ ->]];
      unfold LEFT_EYE_POINTS, RIGHT_EYE_POINTS in *;
      by rewrite (_blinking_ratio_selects _ _ _ _ _ _ _ _ _ _ _ _ _ Hsel), Hnone.
  - destruct (_analyze_valid self f lm side points _ _ _ _ _ _ w Hside Hsel Hf)
      as (v & o & _ & E).
    cbv zeta in E. rewrite E, Hnone. do 2 eexists. split; reflexivity.
Qed.

(** ** The side selector *)

Lemma _analyze_invalid (self : Eye P) (f : loc) (lm : landmarks) (side : Z)
    (w : world C T) :
  side <> 0 -> side <> 1 -> analyze_ self f lm side w = (Ok self, w).
Proof.
  intros H0 H1. unfold _analyze.
  destruct (Z.eqb_spec side 0); [done |].
  destruct (Z.eqb_spec side 1); [done |].
  reflexivity.
Qed.

Lemma _analyze_raises (self : Eye P) (f : loc) (lm : landmarks) (side : Z)
    (points : list nat) (w : world C T) :
  contour side points ->
  (forall ps, ~ selects lm points ps) ->
  analyze_ self f lm side w = (Raise IndexError, w).
Proof.
  intros Hc Hno. unfold _analyze.
  destruct Hc as [[-> ->] | [-> ->]]; cbn [Z.eqb];
    unfold analyze_points, bind, lift, LEFT_EYE_POINTS, RIGHT_EYE_POINTS in *;
    by rewrite (_blinking_ratio_raises _ _ _ _ _ _ _ Hno).
Qed.

Lemma selects_or_not (lm : landmarks) (points : list nat) :
  (exists ps, selects lm points ps) \/ (forall ps, ~ selects lm points ps).
Proof.
  unfold selects. induction points as [| i points IH].
  - left. exists []. constructor.
  - destruct (lm !! i) as [p |] eqn:E.
    + destruct IH as [[ps Hps] | Hno].
      * left. exists (p :: ps). by constructor.
      * right. intros ps H. inversion H; subst. by eapply Hno.
    + right. intros ps H. inversion H; subst. congruence.
Qed.

(** C5: for every side other than 0 and 1, the analysis is a no-op: the
    frame, origin, center, landmark points and pupil stay unset, the store,
    the calibration and the call log are untouched, and nothing is raised. *)
Theorem invalid_side_is_noop (f : loc) (lm : landmarks) (side : Z)
    (w : world C T) :
  side <> 0 -> side <> 1 ->
  init_ f lm side w = (Ok new_Eye, w).
Proof.
  intros H0 H1. unfold __init__. by apply _analyze_invalid.
Qed.

Lemma take_drop_six (lm : landmarks) (i : nat) (p0 p1 p2 p3 p4 p5 : point) :
  selects lm [i; S i; S (S i); S (S (S i)); S (S (S (S i))); S (S (S (S (S i))))]
          [p0; p1; p2; p3; p4; p5] ->
  take 6 (drop i lm) = [p0; p1; p2; p3; p4; p5].
Proof.
  intros H. apply selects_six in H
    as (? & ? & ? & ? & ? & ? & [= <- <- <- <- <- <-] & E0 & E1 & E2 & E3 & E4 & E5).
  rewrite (drop_S _ _ _ E0), (drop_S _ _ _ E1), (drop_S _ _ _ E2),
          (drop_S _ _ _ E3), (drop_S _ _ _ E4), (drop_S _ _ _ E5).
  reflexivity.
Qed.

Lemma contour_selects (lm : landmarks) (side : Z) :
  side = 0 \/ side = 1 -> (48 <= length lm)%nat ->
  exists points p0 p1 p2 p3 p4 p5,
    contour side points /\ selects lm points [p0; p1; p2; p3; p4; p5].
Proof.
  intros Hside Hlen.
  assert (forall points, Forall (fun i => (i < 48)%nat) points ->
                         exists ps, selects lm points ps) as Hsel.
  { intros points Hp. apply selects_exists.
    eapply Forall_impl; [exact Hp |]. cbn. intros. lia. }
  destruct Hside as [-> | ->].
  - destruct (Hsel LEFT_EYE_POINTS) as [ps Hps];
      [unfold LEFT_EYE_POINTS; repeat constructor; lia |].
    destruct (selects_six _ _ _ _ _ _ _ _ Hps)
      as (p0 & p1 & p2 & p3 & p4 & p5 & -> & _).
    exists LEFT_EYE_POINTS, p0, p1, p2, p3, p4, p5. split; [by left | done].
  - destruct (Hsel RIGHT_EYE_POINTS) as [ps Hps];
      [unfold RIGHT_EYE_POINTS; repeat constructor; lia |].
    destruct (selects_six _ _ _ _ _ _ _ _ Hps)
      as (p0 & p1 & p2 & p3 & p4 & p5 & -> & _).
    exists RIGHT_EYE_POINTS, p0, p1, p2, p3, p4, p5. split; [by right | done].
Qed.

(** C6: for every landmark set with at least 48 points, side 0 selects the
    landmarks 36 to 41 and side 1 the landmarks 42 to 47, in that order,
    the first serving as the leftmost corner, the next two as the upper-lid
    points, the fourth as the rightmost corner and the last two as the
    lower-lid points. *)
Theorem side_selects_eye_contour (self : Eye P) (f : loc) (lm : landmarks)
    (side : Z) (first : nat) (w : world C T) :
  side = 0 /\ first = 36%nat \/ side = 1 /\ first = 42%nat ->
  (48 <= length lm)%nat ->
  (f < length (store w))%nat ->
  exists eye w' left_corner upper1 upper2 right_corner lower1 lower2,
    analyze_ self f lm side w = (Ok eye, w')
    /\ take 6 (drop first lm)
       = [left_corner; upper1; upper2; right_corner; lower1; lower2]
    /\ landmark_points eye = Some (map int32_position (take 6 (drop first lm)))
    /\ blinking eye
       = Some (ratio_of left_corner upper1 upper2 right_corner lower1 lower2).
Proof.
  intros Hside Hlen Hf.
  destruct (contour_selects lm side ltac:(tauto) Hlen)
    as (points & p0 & p1 & p2 & p3 & p4 & p5 & Hc & Hsel).
  destruct (_analyze_valid self f lm side points _ _ _ _ _ _ w Hc Hsel Hf)
    as (v & o & _ & E).
  cbv zeta in E. rewrite E.
  assert (take 6 (drop first lm) = [p0; p1; p2; p3; p4; p5]) as Htake.
  { destruct Hside as [[-> ->] | [-> ->]], Hc as [[? ->] | [? ->]];
      try discriminate; by apply take_drop_six. }
  do 2 eexists. exists p0, p1, p2, p3, p4, p5.
  split; [reflexivity |]. split; [exact Htake |].
  cbn [landmark_points blinking]. rewrite Htake. split; [reflexivity |].
  unfold ratio_of. by rewrite (_middle_point_comm p5 p4).
Qed.

(** ** Calibration and the pupil *)

(** C4 (amended): during the analysis of a valid side, [evaluate] is called,
    on the freshly isolated eye sub-image and for that side, if and only if
    [is_complete()] answers false; once the manager reports completion the
    analysis never calls [evaluate]. *)
Theorem evaluate_called_unless_complete (self : Eye P) (f : loc)
    (lm : landmarks) (side : Z) (w : world C T) :
  side = 0 \/ side = 1 ->
  (48 <= length lm)%nat ->
  (f < length (store w))%nat ->
  exists eye w' new,
    analyze_ self f lm side w = (Ok eye, w')
    /\ calls w' = calls w ++ new
    /\ (In (CallEvaluate (frame eye) side) new
        <-> is_complete (calibration w) = false)
    /\ (forall v s, In (CallEvaluate v s) new -> v = frame eye /\ s = side).
Proof.
  intros Hside Hlen Hf.
  destruct (contour_selects lm side Hside Hlen)
    as (points & p0 & p1 & p2 & p3 & p4 & p5 & Hc & Hsel).
  destruct (_analyze_valid self f lm side points _ _ _ _ _ _ w Hc Hsel Hf)
    as (v & o & _ & E).
  cbv zeta in E. rewrite E. do 3 eexists.
  split; [reflexivity |]. split; [reflexivity |].
  cbn [frame]. unfold calls_of.
  destruct (is_complete (calibration w)); cbn [app In]; split.
  - split; [| done]. intros [H | [H | [H | []]]]; discriminate.
  - intros v' s [H | [H | [H | []]]]; discriminate.
  - split; [done |]. intros _. right. by left.
  - intros v' s [H | [H | [H | [H | []]]]]; try discriminate.
    by injection H as <- <-.
Qed.

(** C10: for every valid side and every landmark set with at least 48
    points, the analysis leaves an Eye with every field assigned: blinking
    ratio (possibly the undefined value), cropped frame, origin, center,
    landmark points and pupil. The pupil locator is the last collaborator
    called, on the cropped frame and with the threshold the calibration
    manager holds for that side at that moment, whether or not calibration
    is complete. *)
Theorem valid_side_assigns_every_field (self : Eye P) (f : loc)
    (lm : landmarks) (side : Z) (w : world C T) :
  side = 0 \/ side = 1 ->
  (48 <= length lm)%nat ->
  (f < length (store w))%nat ->
  exists eye w' v p h,
    analyze_ self f lm side w = (Ok eye, w')
    /\ is_Some (blinking eye)
    /\ frame eye = Some v
    /\ is_Some (origin eye) /\ is_Some (center eye)
    /\ is_Some (landmark_points eye)
    /\ pupil eye = Some p
    /\ Pupil h (Some v) (threshold side (calibration w')) = (p, store w')
    /\ last (calls w')
       = Some (CallPupil (Some v) (threshold side (calibration w'))).
Proof.
  intros Hside Hlen Hf.
  destruct (contour_selects lm side Hside Hlen)
    as (points & p0 & p1 & p2 & p3 & p4 & p5 & Hc & Hsel).
  destruct (_analyze_valid self f lm side points _ _ _ _ _ _ w Hc Hsel Hf)
    as (v & o & _ & E).
  cbv zeta in E. rewrite E. do 5 eexists.
  split; [reflexivity |].
  cbn [blinking frame origin center landmark_points pupil store calibration calls].
  repeat (split; [by eauto |]). split.
  - apply surjective_pairing.
  - unfold calls_of.
    change [CallThreshold side; CallPupil (Some v) ?t]
      with ([CallThreshold (T := T) side] ++ [CallPupil (Some v) t]).
    rewrite !app_assoc. apply last_snoc.
Qed.

(** ** The caller's frame *)

(** C9: for every input, the analysis leaves the caller's frame as it was:
    the mask is applied to a copy, and the collaborators are handed a view
    on that copy only. *)
Theorem original_frame_is_untouched (self : Eye P) (f : loc) (lm : landmarks)
    (side : Z) (w : world C T) :
  (f < length (store w))%nat ->
  keeps_other_buffers (fun h v (a : Z * C) => evaluate h v (fst a) (snd a)) ->
  keeps_other_buffers Pupil ->
  read (store (snd (analyze_ self f lm side w))) f = read (store w) f.
Proof.
  intros Hf Hevaluate Hpupil.
  assert (side = 0 \/ side = 1 \/ side <> 0 /\ side <> 1) as [-> | [-> | [H0 H1]]]
    by lia; [| | by rewrite _analyze_invalid].
  all: match goal with
       | |- context [analyze_ _ _ _ 0 _] =>
           pose (points := LEFT_EYE_POINTS);
           assert (contour 0 points) as Hc by (by left)
       | |- context [analyze_ _ _ _ 1 _] =>
           pose (points := RIGHT_EYE_POINTS);
           assert (contour 1 points) as Hc by (by right)
       end.
  all: destruct (selects_or_not lm points) as [[ps Hsel] | Hno];
    [| by rewrite (_analyze_raises _ _ _ _ points)].
  all: destruct (selects_six _ _ _ _ _ _ _ _ Hsel)
         as (p0 & p1 & p2 & p3 & p4 & p5 & -> & _).
  all: destruct (_analyze_valid self f lm _ points _ _ _ _ _ _ w Hc Hsel Hf)
         as (v & o & Hbuf & E).
  all: cbv zeta in E; rewrite E; cbn [snd store]; unfold read; f_equal.
  all: match goal with
       | |- (Pupil (snd (warm_up ?h1 _ ?s _)) _ _).2 !! _ = _ =>
           assert (h1 !! f = store w !! f) as E1 by (by rewrite lookup_app_l);
           assert (Some f <> buf <$> Some v) as Hne
             by (cbn; rewrite Hbuf; intros [= ?]; lia);
           assert ((warm_up h1 (Some v) s (calibration w)).2 !! f = h1 !! f) as E2
       end.
  1, 3: unfold warm_up; destruct (is_complete _); [done |];
        apply (Hevaluate _ _ (_, _)); [| done];
        apply lookup_lt_is_Some; rewrite E1; by apply lookup_lt_is_Some.
  all: rewrite Hpupil; [by rewrite E2, E1 | | done].
  all: apply lookup_lt_is_Some; rewrite E2, E1; by apply lookup_lt_is_Some.
Qed.

(** ** The isolation of the eye *)

(** C3 (amended): for every frame and every landmark set whose bounding box,
    expanded by the margin of 5 pixels, does not start left of or above the
    frame and has bounds that are 32-bit values (max_x + 5 and max_y + 5
    below 2^31), the isolation crops the masked frame to the rows
    min_y - 5 <= r < max_y + 5 and the columns min_x - 5 <= c < max_x + 5
    (as far as the frame reaches), and records (min_x - 5, min_y - 5) as
    the origin. *)
Theorem isolation_crops_expanded_box (self : Eye P) (f : loc)
    (lm : landmarks) (points : list nat) (ps : list point)
    (min_x max_x min_y max_y : Z) (w : world C T) :
  selects lm points ps ->
  let region := map int32_position ps in
  is_min min_x (map fst region) -> is_max max_x (map fst region) ->
  is_min min_y (map snd region) -> is_max max_y (map snd region) ->
  (f < length (store w))%nat ->
  let eye_img := masked (read (store w) f) region in
  rectangular eye_img = true ->
  0 <= min_x - 5 -> 0 <= min_y - 5 ->
  max_x + 5 < 2 ^ 31 -> max_y + 5 < 2 ^ 31 ->
  exists eye w' v,
    isolate self f lm points w = (Ok eye, w')
    /\ landmark_points eye = Some region
    /\ frame eye = Some v
    /\ origin eye = Some (min_x - 5, min_y - 5)
    /\ cropped_to eye_img (view_pixels (store w') v)
                  (min_y - 5) (max_y + 5) (min_x - 5) (max_x + 5).
Proof.
  intros Hsel region Hlx Hhx Hly Hhy Hf eye_img Hrect Hx Hy _ _.
  assert (min_x <= max_x) as Hxx.
  { destruct Hlx as [Hin _], Hhx as [_ Hall]. rewrite Forall_forall in Hall.
    apply Hall. by apply list_elem_of_In. }
  assert (min_y <= max_y) as Hyy.
  { destruct Hly as [Hin _], Hhy as [_ Hall]. rewrite Forall_forall in Hall.
    apply Hall. by apply list_elem_of_In. }
  erewrite _isolate_spec by (try apply region_of_selects; eassumption).
  fold region eye_img. do 3 eexists.
  split; [reflexivity |]. cbn [landmark_points frame origin store].
  do 3 (split; [reflexivity |]).
  intros i j. unfold view_pixels, slice_view.
  cbn [buf row0 nrows col0 ncols].
  unfold isolation_buffers. cbn [shape].
  change (masked_frame cv2_fillPoly cv2_bitwise_not (read (store w) f) region)
    with eye_img.
  rewrite read_buffers, pixel_at_crop.
  rewrite (slice_lookup eye_img) by (cbn [shape fst]; lia).
  unfold pixel_atZ.
  destruct (Z.ltb_spec (Z.of_nat i) (max_y + 5 - (min_y - 5))); cbn [andb]; [| done].
  destruct (Z.leb_spec 0 (min_y - 5 + Z.of_nat i)); [| lia].
  destruct (Z.leb_spec 0 (min_x - 5 + Z.of_nat j)); [| lia].
  cbn [andb]. unfold pixel_at.
  destruct (eye_img !! Z.to_nat (min_y - 5 + Z.of_nat i)) as [r |] eqn:Er;
    [| by destruct (_ <? _)].
  apply (slice_lookup r); [| lia | lia].
  by eapply rectangular_row.
Qed.

(** C7: the isolation can be repeated: run a second time on the same frame
    and landmarks, it succeeds again and yields a cropped image with the
    same pixels and size, the same origin, center and landmark points, and
    the first crop is still what it was. *)
Theorem isolation_is_repeatable (self : Eye P) (f : loc) (lm : landmarks)
    (points : list nat) (ps : list point) (w : world C T) :
  selects lm points ps -> ps <> [] ->
  (f < length (store w))%nat ->
  exists e1 w1 e2 w2 v1 v2,
    isolate self f lm points w = (Ok e1, w1)
    /\ isolate e1 f lm points w1 = (Ok e2, w2)
    /\ frame e1 = Some v1 /\ frame e2 = Some v2
    /\ view_pixels (store w2) v2 = view_pixels (store w1) v1
    /\ (nrows v2, ncols v2) = (nrows v1, ncols v1)
    /\ view_pixels (store w2) v1 = view_pixels (store w1) v1
    /\ origin e2 = origin e1 /\ center e2 = center e1
    /\ landmark_points e2 = landmark_points e1.
Proof.
  intros Hsel Hps Hf.
  set (region := map int32_position ps).
  assert (region <> []) as Hregion by (by destruct ps).
  destruct (column_min_exists (map fst region)) as [lo_x Hlx]; [by destruct region |].
  destruct (column_max_exists (map fst region)) as [hi_x Hhx]; [by destruct region |].
  destruct (column_min_exists (map snd region)) as [lo_y Hly]; [by destruct region |].
  destruct (column_max_exists (map snd region)) as [hi_y Hhy]; [by destruct region |].
  pose proof (region_of_selects _ _ _ Hsel) as Hr. fold region in Hr.
  pose proof (_isolate_spec self f lm points region lo_x hi_x lo_y hi_y w
                Hr Hlx Hhx Hly Hhy Hf) as E1.
  cbv zeta in E1.
  set (img := read (store w) f) in *.
  set (w1 := World (store w ++ buffers img region) (calibration w) (calls w)) in *.
  assert (f < length (store w1))%nat as Hf1
    by (cbn [store w1]; rewrite length_app; lia).
  assert (read (store w1) f = img) as Himg by (by apply read_old).
  match type of E1 with
  | _ = (Ok ?e1, _) =>
      pose proof (_isolate_spec e1 f lm points region lo_x hi_x lo_y hi_y w1
                    Hr Hlx Hhx Hly Hhy Hf1) as E2
  end.
  cbv zeta in E2. rewrite Himg in E2.
  do 6 eexists.
  split; [exact E1 |]. split; [exact E2 |].
  do 2 (split; [reflexivity |]).
  cbn [store w1 origin center landmark_points pupil blinking].
  unfold view_pixels, slice_view, center_of, isolation_buffers.
  cbn [buf row0 nrows col0 ncols shape].
  rewrite !read_buffers.
  rewrite read_old by (rewrite length_app; cbn [length]; lia).
  by rewrite read_buffers.
Qed.

(** ** The scenario of the specification *)

Lemma _analyze_blinking (self : Eye P) (f : loc) (lm : landmarks) (side : Z)
    (points : list nat) (p0 p1 p2 p3 p4 p5 : point) (w : world C T) :
  contour side points ->
  selects lm points [p0; p1; p2; p3; p4; p5] ->
  (f < length (store w))%nat ->
  exists eye w',
    analyze_ self f lm side w = (Ok eye, w')
    /\ blinking eye = Some (ratio_of p0 p1 p2 p3 p5 p4).
Proof.
  intros Hc Hsel Hf.
  destruct (_analyze_valid self f lm side points _ _ _ _ _ _ w Hc Hsel Hf)
    as (v & o & _ & E).
  cbv zeta in E. rewrite E. do 2 eexists. split; reflexivity.
Qed.

Lemma scenario_eye_ratio : 
  ratio_of (Point 36 10) (Point 40 5) (Point 44 5) (Point 48 10)
           (Point 40 14) (Point 44 14) = Some (12 / 9)%R.
Proof.
  unfold ratio_of, _middle_point, position. cbn [x y].
  rewrite (distance_square _ _ 12), (distance_square _ _ 9)
    by (vm_compute; congruence).
  apply truediv_nonzero. lra.
Qed.

Lemma mirrored_eye_ratio (k : Z) : 
  ratio_of (Point (k - 48) 10) (Point (k - 44) 5) (Point (k - 40) 5)
           (Point (k - 36) 10) (Point (k - 44) 14) (Point (k - 40) 14)
  = Some (12 / 9)%R.
Proof.
  unfold ratio_of, _middle_point, position. cbn [x y].
  change (round53 (5 + 5) ÷ 2) with 5. change (round53 (14 + 14) ÷ 2) with 14.
  generalize (round53 (k - 44 + (k - 40)) ÷ 2). intros m.
  rewrite (distance_square _ _ 12), (distance_square _ _ 9)
    by (cbn [fst snd]; lia).
  apply truediv_nonzero. lra.
Qed.

(** C8 (amended): for the landmark coordinates
    [(36,10),(40,5),(44,5),(48,10),(44,14),(40,14)] (width 12, height 9)
    the computed blinking ratio is 12/9, about 1.33, and the mirrored
    geometry analysed as the right eye produces the same ratio. *)
Theorem scenario_ratio_is_four_thirds (self : Eye P) (f : loc) (k : Z)
    (w : world C T) :
  (f < length (store w))%nat ->
  (exists eye w',
      analyze_ self f (face scenario_eye (mirrored_eye k)) 0 w = (Ok eye, w')
      /\ blinking eye = Some (Some (12 / 9)%R))
  /\ (exists eye w',
        analyze_ self f (face scenario_eye (mirrored_eye k)) 1 w = (Ok eye, w')
        /\ blinking eye = Some (Some (12 / 9)%R)).
Proof.
  intros Hf. split.
  - rewrite <- scenario_eye_ratio.
    apply (_analyze_blinking _ _ _ _ LEFT_EYE_POINTS); [by left | | done].
    repeat constructor.
  - rewrite <- (mirrored_eye_ratio k).
    apply (_analyze_blinking _ _ _ _ RIGHT_EYE_POINTS); [by right | | done].
    repeat constructor.
Qed.

End AnalyzerFacts.

(** * The theorems on concrete inputs *)

Lemma blinking_ratio_is_width_over_height_witness :
  exists eye w',
    sample_analyze new_Eye 0%nat (face tilted_eye scenario_eye) 0
                   (sample_world no_reading) = (Ok eye, w')
    /\ blinking eye
       = Some (Some (distance (30, 20)%Z (42, 25)%Z / distance (36, 16)%Z (36, 24)%Z)%R).
Proof.
  apply (blinking_ratio_is_width_over_height
           sample_fillPoly sample_bitwise_not sample_Pupil new_Eye 0%nat
           (face tilted_eye scenario_eye) 0 LEFT_EYE_POINTS
           (Point 30 20) (Point 34 16) (Point 38 16)
           (Point 42 25) (Point 38 24) (Point 34 24) (36, 16) (36, 24)).
  - by left.
  - repeat constructor.
  - repeat (constructor; [split; cbn; lia |]). constructor.
  - split; unfold truncated_mean; cbn; lia.
  - split; unfold truncated_mean; cbn; lia.
  - discriminate.
  - cbn. lia.
Defined.

(** C1, as stated: on an eye whose corners are not level the ratio is 13/8,
    whereas the horizontal distance of the corners over the vertical distance
    of the lid midpoints is 12/8. *)
Lemma tilted_eye_ratio_is_not_horizontal_over_vertical :
  exists eye w',
    sample_analyze new_Eye 0%nat (face tilted_eye scenario_eye) 0
                   (sample_world no_reading) = (Ok eye, w')
    /\ blinking eye = Some (Some (13 / 8)%R)
    /\ (horizontal_distance (30, 20)%Z (42, 25)%Z
        / vertical_distance (36, 16)%Z (36, 24)%Z = 12 / 8)%R
    /\ blinking eye
       <> Some (Some (horizontal_distance (30, 20)%Z (42, 25)%Z
                      / vertical_distance (36, 16)%Z (36, 24)%Z)%R).
Proof.
  destruct (_analyze_blinking (calibration_manager := sample_calibration)
              sample_fillPoly sample_bitwise_not sample_Pupil new_Eye 0%nat
              (face tilted_eye scenario_eye) 0 LEFT_EYE_POINTS
              (Point 30 20) (Point 34 16) (Point 38 16)
              (Point 42 25) (Point 38 24) (Point 34 24)
              (sample_world no_reading))
    as (eye & w' & E & Hb); [by left | repeat constructor | cbn; lia |].
  assert (ratio_of (Point 30 20) (Point 34 16) (Point 38 16)
                   (Point 42 25) (Point 34 24) (Point 38 24)
          = Some (13 / 8)%R) as Hr.
  { unfold ratio_of, _middle_point, position. cbn [x y].
    rewrite (distance_square _ _ 13), (distance_square _ _ 8)
      by (vm_compute; congruence).
    apply truediv_nonzero. lra. }
  assert (horizontal_distance (30, 20)%Z (42, 25)%Z
          / vertical_distance (36, 16)%Z (36, 24)%Z = 12 / 8)%R as Hq.
  { rewrite horizontal_distance_abs, vertical_distance_abs. reflexivity. }
  exists eye, w'. split; [exact E |]. rewrite Hb, Hr, Hq.
  split; [reflexivity |]. split; [reflexivity |].
  intros [= H]. lra.
Qed.

(** C2, as stated: on an eye at coordinates beyond 2^53 both lid midpoints
    are the point (2^53 + 1, 0), yet the ratio is not the undefined value:
    the sums of the lid coordinates are rounded to 2^54 and 2^54 + 4 before
    they are halved, the middle points are two pixels apart and the ratio is
    12 / 2. *)
Lemma far_eye_ratio_is_six :
  selects (face far_eye scenario_eye) LEFT_EYE_POINTS far_eye
  /\ midpoint (Point (2 ^ 53 + 1) 0) (Point (2 ^ 53 + 1) 0) (2 ^ 53 + 1, 0)
  /\ midpoint (Point (2 ^ 53 + 2) 0) (Point (2 ^ 53 + 1) 0) (2 ^ 53 + 1, 0)
  /\ _middle_point (Point (2 ^ 53 + 1) 0) (Point (2 ^ 53 + 1) 0) = (2 ^ 53, 0)
  /\ _middle_point (Point (2 ^ 53 + 2) 0) (Point (2 ^ 53 + 1) 0) = (2 ^ 53 + 2, 0)
  /\ _blinking_ratio (face far_eye scenario_eye) LEFT_EYE_POINTS = Ok (Some 6%R)
  /\ _blinking_ratio (face far_eye scenario_eye) LEFT_EYE_POINTS <> Ok None.
Proof.
  assert (selects (face far_eye scenario_eye) LEFT_EYE_POINTS far_eye) as Hsel
    by repeat constructor.
  assert (_blinking_ratio (face far_eye scenario_eye) LEFT_EYE_POINTS
          = Ok (Some 6%R)) as Hr.
  { unfold LEFT_EYE_POINTS, far_eye in *.
    rewrite (_blinking_ratio_selects _ _ _ _ _ _ _ _ _ _ _ _ _ Hsel).
    unfold ratio_of, position. cbn [x y].
    change (_middle_point (Point (2 ^ 53 + 1) 0) (Point (2 ^ 53 + 1) 0))
      with (2 ^ 53, 0).
    change (_middle_point (Point (2 ^ 53 + 1) 0) (Point (2 ^ 53 + 2) 0))
      with (2 ^ 53 + 2, 0).
    rewrite (distance_square _ _ 12), (distance_square _ _ 2)
      by (vm_compute; congruence).
    rewrite truediv_nonzero by lra. do 2 f_equal. lra. }
  split; [exact Hsel |].
  split; [split; unfold truncated_mean; cbn; lia |].
  split; [split; unfold truncated_mean; cbn; lia |].
  split; [reflexivity |]. split; [reflexivity |].
  split; [exact Hr |]. rewrite Hr. intros [= H].
Qed.

Lemma coinciding_midpoints_give_no_ratio_witness :
  _blinking_ratio (face closed_eye scenario_eye) LEFT_EYE_POINTS = Ok None
  /\ exists eye w',
       sample_analyze new_Eye 0%nat (face closed_eye scenario_eye) 0
                      (sample_world no_reading) = (Ok eye, w')
       /\ blinking eye = Some None.
Proof.
  apply (coinciding_midpoints_give_no_ratio
           (calibration_manager := sample_calibration)
           sample_fillPoly sample_bitwise_not sample_Pupil new_Eye 0%nat
           (face closed_eye scenario_eye) 0 LEFT_EYE_POINTS
           (Point 30 20) (Point 34 20) (Point 38 20)
           (Point 42 20) (Point 38 20) (Point 34 20) (36, 20)).
  - by left.
  - repeat constructor.
  - repeat (constructor; [split; cbn; lia |]). constructor.
  - split; unfold truncated_mean; cbn; lia.
  - split; unfold truncated_mean; cbn; lia.
  - cbn. lia.
Defined.

Lemma invalid_side_is_noop_witness :
  __init__ (calibration_manager := sample_calibration)
           sample_fillPoly sample_bitwise_not sample_Pupil
           0%nat (face scenario_eye (mirrored_eye 90)) 2
           (sample_world no_reading)
  = (Ok new_Eye, sample_world no_reading).
Proof.
  apply (invalid_side_is_noop (calibration_manager := sample_calibration));
    discriminate.
Defined.

Lemma side_selects_eye_contour_witness :
  exists eye w' left_corner upper1 upper2 right_corner lower1 lower2,
    sample_analyze new_Eye 0%nat (face scenario_eye (mirrored_eye 90)) 1
                   (sample_world no_reading) = (Ok eye, w')
    /\ take 6 (drop 42 (face scenario_eye (mirrored_eye 90)))
       = [left_corner; upper1; upper2; right_corner; lower1; lower2]
    /\ landmark_points eye
       = Some (map int32_position
                   (take 6 (drop 42 (face scenario_eye (mirrored_eye 90)))))
    /\ blinking eye
       = Some (ratio_of left_corner upper1 upper2 right_corner lower1 lower2).
Proof.
  apply (side_selects_eye_contour (calibration_manager := sample_calibration)
           sample_fillPoly sample_bitwise_not sample_Pupil new_Eye 0%nat
           (face scenario_eye (mirrored_eye 90)) 1 42%nat
           (sample_world no_reading)).
  - right. split; reflexivity.
  - cbn. lia.
  - cbn. lia.
Defined.

Lemma isolation_crops_expanded_box_witness :
  exists eye w' v,
    sample_isolate new_Eye 0%nat (face scenario_eye (mirrored_eye 90))
                   LEFT_EYE_POINTS (sample_world no_reading) = (Ok eye, w')
    /\ landmark_points eye = Some (map int32_position scenario_eye)
    /\ frame eye = Some v
    /\ origin eye = Some (36 - 5, 5 - 5)
    /\ cropped_to (sample_masked scenario_eye) (view_pixels (store w') v)
                  (5 - 5) (14 + 5) (36 - 5) (48 + 5).
Proof.
  apply (isolation_crops_expanded_box (C := CalibrationState) (T := option Z)
           sample_fillPoly sample_bitwise_not new_Eye 0%nat
           (face scenario_eye (mirrored_eye 90)) LEFT_EYE_POINTS scenario_eye
           36 48 5 14 (sample_world no_reading)).
  - repeat constructor.
  - split; [vm_compute; auto 10 | repeat constructor; vm_compute; congruence].
  - split; [vm_compute; auto 10 | repeat constructor; vm_compute; congruence].
  - split; [vm_compute; auto 10 | repeat constructor; vm_compute; congruence].
  - split; [vm_compute; auto 10 | repeat constructor; vm_compute; congruence].
  - cbn. lia.
  - vm_compute. reflexivity.
  - lia.
  - lia.
  - lia.
  - lia.
Defined.

(** C3, as stated: for an eye three pixels from the left border the origin is
    (-2, 11) and the crop has 18 rows without a single pixel, although the
    expanded bounding box covers the columns 0 to 19 of the masked frame. *)
Lemma border_eye_crop_is_empty :
  exists eye w' v,
    sample_isolate new_Eye 0%nat (face border_eye scenario_eye)
                   LEFT_EYE_POINTS (sample_world no_reading) = (Ok eye, w')
    /\ landmark_points eye = Some (map int32_position border_eye)
    /\ frame eye = Some v
    /\ origin eye = Some (3 - 5, 16 - 5)
    /\ view_pixels (store w') v = replicate 18 []
    /\ pixel_atZ (sample_masked border_eye) 11 0 = Some [255]
    /\ ~ cropped_to (sample_masked border_eye) (view_pixels (store w') v)
                    (16 - 5) (24 + 5) (3 - 5) (15 + 5).
Proof.
  pose proof (_isolate_spec (C := CalibrationState) (T := option Z)
                (P := option Z)
                sample_fillPoly sample_bitwise_not new_Eye 0%nat
                (face border_eye scenario_eye) LEFT_EYE_POINTS
                (map int32_position border_eye) 3 15 16 24
                (sample_world no_reading)) as E.
  cbv zeta in E. do 3 eexists. split.
  - apply E.
    + apply region_of_selects. repeat constructor.
    + split; [vm_compute; auto 10 | repeat constructor; vm_compute; congruence].
    + split; [vm_compute; auto 10 | repeat constructor; vm_compute; congruence].
    + split; [vm_compute; auto 10 | repeat constructor; vm_compute; congruence].
    + split; [vm_compute; auto 10 | repeat constructor; vm_compute; congruence].
    + cbn. lia.
  - cbn [landmark_points frame origin store].
    do 3 (split; [reflexivity |]).
    split; [by vm_compute |]. split; [by vm_compute |].
    intros H. specialize (H 0%nat 2%nat). vm_compute in H. discriminate.
Qed.

Lemma evaluate_called_unless_complete_witness :
  exists eye w' new,
    sample_analyze new_Eye 0%nat (face scenario_eye (mirrored_eye 90)) 0
                   (sample_world no_reading) = (Ok eye, w')
    /\ calls w' = calls (sample_world no_reading) ++ new
    /\ (In (CallEvaluate (frame eye) 0) new
        <-> is_complete (Calibration := sample_calibration)
                        (calibration (sample_world (T := option Z) no_reading))
            = false)
    /\ (forall v s, In (CallEvaluate v s) new -> v = frame eye /\ s = 0).
Proof.
  apply (evaluate_called_unless_complete
           (calibration_manager := sample_calibration)
           sample_fillPoly sample_bitwise_not sample_Pupil new_Eye 0%nat
           (face scenario_eye (mirrored_eye 90)) 0 (sample_world no_reading)).
  - by left.
  - cbn. lia.
  - cbn. lia.
Defined.

(** C4, as stated: with the calibration manager of the specification, the
    left side has reached its sample count while the right side has not; the
    analysis of the left eye still calls [evaluate] for the left side. *)
Lemma left_side_complete_still_evaluated :
  side_complete 0 left_done = true
  /\ exists eye w',
       sample_analyze new_Eye 0%nat (face scenario_eye (mirrored_eye 90)) 0
                      (sample_world left_done) = (Ok eye, w')
       /\ In (CallEvaluate (frame eye) 0) (calls w').
Proof.
  split; [reflexivity |].
  destruct (_analyze_valid (calibration_manager := sample_calibration)
              sample_fillPoly sample_bitwise_not sample_Pupil new_Eye 0%nat
              (face scenario_eye (mirrored_eye 90)) 0 LEFT_EYE_POINTS
              (Point 36 10) (Point 40 5) (Point 44 5)
              (Point 48 10) (Point 44 14) (Point 40 14)
              (sample_world left_done))
    as (v & o & _ & E); [by left | repeat constructor | cbn; lia |].
  cbv zeta in E. do 2 eexists. split; [exact E |].
  cbn [calls frame sample_world app]. unfold calls_of.
  change (is_complete (calibration (sample_world left_done))) with false.
  cbn [app In]. right. by left.
Qed.

Lemma isolation_is_repeatable_witness :
  exists e1 w1 e2 w2 v1 v2,
    sample_isolate new_Eye 0%nat (face scenario_eye (mirrored_eye 90))
                   LEFT_EYE_POINTS (sample_world no_reading) = (Ok e1, w1)
    /\ sample_isolate e1 0%nat (face scenario_eye (mirrored_eye 90))
                      LEFT_EYE_POINTS w1 = (Ok e2, w2)
    /\ frame e1 = Some v1 /\ frame e2 = Some v2
    /\ view_pixels (store w2) v2 = view_pixels (store w1) v1
    /\ (nrows v2, ncols v2) = (nrows v1, ncols v1)
    /\ view_pixels (store w2) v1 = view_pixels (store w1) v1
    /\ origin e2 = origin e1 /\ center e2 = center e1
    /\ landmark_points e2 = landmark_points e1.
Proof.
  apply (isolation_is_repeatable (C := CalibrationState) (T := option Z)
           sample_fillPoly sample_bitwise_not new_Eye 0%nat
           (face scenario_eye (mirrored_eye 90)) LEFT_EYE_POINTS scenario_eye
           (sample_world no_reading)).
  - repeat constructor.
  - discriminate.
  - cbn. lia.
Defined.

Lemma scenario_ratio_is_four_thirds_witness :
  (exists eye w',
      sample_analyze new_Eye 0%nat (face scenario_eye (mirrored_eye 90)) 0
                     (sample_world no_reading) = (Ok eye, w')
      /\ blinking eye = Some (Some (12 / 9)%R))
  /\ (exists eye w',
        sample_analyze new_Eye 0%nat (face scenario_eye (mirrored_eye 90)) 1
                       (sample_world no_reading) = (Ok eye, w')
        /\ blinking eye = Some (Some (12 / 9)%R)).
Proof.
  apply (scenario_ratio_is_four_thirds
           (calibration_manager := sample_calibration)
           sample_fillPoly sample_bitwise_not sample_Pupil new_Eye 0%nat 90
           (sample_world no_reading)).
  cbn. lia.
Defined.

(** C8, as stated: the lid midpoints of the scenario are 9 pixels apart, not
    8, and the computed ratio is 12/9, which is off 1.5 by a sixth. *)
Lemma scenario_ratio_is_not_three_halves :
  exists r : R,
    _blinking_ratio (face scenario_eye (mirrored_eye 90)) LEFT_EYE_POINTS
    = Ok (Some r)
    /\ distance (_middle_point (Point 40 5) (Point 44 5))
                (_middle_point (Point 40 14) (Point 44 14)) = 9%R
    /\ r = (12 / 9)%R
    /\ (Rabs (r - 3 / 2) > 1 / 10)%R.
Proof.
  exists (12 / 9)%R. split; [| split; [| split]].
  - unfold LEFT_EYE_POINTS.
    rewrite (_blinking_ratio_selects _ _ _ _ _ _ _
               (Point 36 10) (Point 40 5) (Point 44 5)
               (Point 48 10) (Point 44 14) (Point 40 14))
      by repeat constructor.
    f_equal. apply scenario_eye_ratio.
  - by apply distance_square; vm_compute.
  - reflexivity.
  - rewrite Rabs_left by lra. lra.
Qed.

Lemma original_frame_is_untouched_witness :
  read (store (snd (sample_analyze new_Eye 0%nat
                                   (face scenario_eye (mirrored_eye 90)) 0
                                   (sample_world no_reading)))) 0
  = read (store (sample_world (T := option Z) no_reading)) 0.
Proof.
  apply (original_frame_is_untouched (calibration_manager := sample_calibration)
           sample_fillPoly sample_bitwise_not sample_Pupil new_Eye 0%nat
           (face scenario_eye (mirrored_eye 90)) 0 (sample_world no_reading)).
  - cbn. lia.
  - intros h v a l _ _. cbn. unfold spec_evaluate.
    destruct (v ≫= _); reflexivity.
  - intros h v a l _ _. reflexivity.
Defined.

Lemma valid_side_assigns_every_field_witness :
  exists eye w' v p h,
    sample_analyze new_Eye 0%nat (face scenario_eye (mirrored_eye 90)) 1
                   (sample_world no_reading) = (Ok eye, w')
    /\ is_Some (blinking eye)
    /\ frame eye = Some v
    /\ is_Some (origin eye) /\ is_Some (center eye)
    /\ is_Some (landmark_points eye)
    /\ pupil eye = Some p
    /\ sample_Pupil h (Some v)
                    (threshold (Calibration := sample_calibration) 1
                               (calibration w')) = (p, store w')
    /\ last (calls w')
       = Some (CallPupil (Some v)
                         (threshold (Calibration := sample_calibration) 1
                                    (calibration w'))).
Proof.
  apply (valid_side_assigns_every_field
           (calibration_manager := sample_calibration)
           sample_fillPoly sample_bitwise_not sample_Pupil new_Eye 0%nat
           (face scenario_eye (mirrored_eye 90)) 1 (sample_world no_reading)).
  - by right.
  - cbn. lia.
  - cbn. lia.
Defined.

(** * Further properties of [eye.py] *)

(** ** [_middle_point] *)

Lemma quot2_between (a b : Z) :
  Z.min a b <= Z.quot (a + b) 2 <= Z.max a b
  /\ Z.abs (2 * Z.quot (a + b) 2 - (a + b)) <= 1.
Proof.
  pose proof (Z.quot_rem' (a + b) 2) as E.
  destruct (Z_le_gt_dec 0 (a + b)) as [Hs | Hs].
  - pose proof (Z.rem_bound_pos (a + b) 2 Hs ltac:(lia)). lia.
  - pose proof (Z.rem_bound_pos_neg (a + b) 2 ltac:(lia) ltac:(lia)). lia.
Qed.

(** X1: for two points with coordinates below 2^52 in magnitude, each
    coordinate of the middle point lies between the coordinates of the two
    points, and twice that coordinate is within one of their sum. *)
Theorem _middle_point_between (p q : point) :
  float_exact p -> float_exact q ->
  (Z.min (x p) (x q) <= fst (_middle_point p q) <= Z.max (x p) (x q)
   /\ Z.min (y p) (y q) <= snd (_middle_point p q) <= Z.max (y p) (y q))
  /\ Z.abs (2 * fst (_middle_point p q) - (x p + x q)) <= 1
  /\ Z.abs (2 * snd (_middle_point p q) - (y p + y q)) <= 1.
Proof.
  intros Hp Hq. rewrite (_middle_point_exact p q Hp Hq). cbn [fst snd].
  pose proof (quot2_between (x p) (x q)). pose proof (quot2_between (y p) (y q)).
  tauto.
Qed.

(** ** [_blinking_ratio] *)

Lemma distance_nonneg (p q : Z * Z) : (0 <= distance p q)%R.
Proof. unfold distance. apply sqrt_pos. Qed.

Lemma distance_sym (p q : Z * Z) : distance p q = distance q p.
Proof. unfold distance. f_equal. ring. Qed.

Lemma ratio_of_None (p0 p1 p2 p3 p4 p5 : point) :
  ratio_of p0 p1 p2 p3 p4 p5 = None
  <-> _middle_point p1 p2 = _middle_point p4 p5.
Proof.
  unfold ratio_of, truediv_or_None.
  destruct (Req_dec_T _ 0) as [E | E]; rewrite distance_zero in E; split;
    intros H; try done.
Qed.

Lemma ratio_of_Some (p0 p1 p2 p3 p4 p5 : point) (r : R) :
  ratio_of p0 p1 p2 p3 p4 p5 = Some r ->
  (0 <= r)%R /\ (r = 0%R <-> position p0 = position p3).
Proof.
  unfold ratio_of, truediv_or_None.
  destruct (Req_dec_T _ 0) as [E | E]; [done |]. intros [= <-].
  pose proof (distance_nonneg (position p0) (position p3)) as Hw.
  pose proof (distance_nonneg (_middle_point p1 p2) (_middle_point p4 p5)) as Hh.
  assert (0 < distance (_middle_point p1 p2) (_middle_point p4 p5))%R as Hpos by lra.
  split.
  - apply Rmult_le_pos; [exact Hw |]. left. by apply Rinv_0_lt_compat.
  - rewrite <- distance_zero. split.
    + intros H. unfold Rdiv in H. apply Rmult_integral in H as [H | H]; [exact H |].
      exfalso. by apply (Rinv_neq_0_compat _ E).
    + intros ->. unfold Rdiv. apply Rmult_0_l.
Qed.

(** X2: on a complete contour the ratio is undefined exactly when the two lid
    midpoints coincide; otherwise it is a non-negative number, and it is zero
    exactly when the two corners coincide. *)
Theorem _blinking_ratio_cases (lm : landmarks) (i0 i1 i2 i3 i4 i5 : nat)
    (p0 p1 p2 p3 p4 p5 : point) :
  selects lm [i0; i1; i2; i3; i4; i5] [p0; p1; p2; p3; p4; p5] ->
  (_blinking_ratio lm [i0; i1; i2; i3; i4; i5] = Ok None
   <-> _middle_point p1 p2 = _middle_point p4 p5)
  /\ (forall r, _blinking_ratio lm [i0; i1; i2; i3; i4; i5] = Ok (Some r) ->
                (0 <= r)%R /\ (r = 0%R <-> position p0 = position p3)).
Proof.
  intros Hsel. rewrite (_blinking_ratio_selects _ _ _ _ _ _ _ _ _ _ _ _ _ Hsel).
  split.
  - rewrite <- (_middle_point_comm p5 p4), <- ratio_of_None.
    split; [by intros [= ->] | by intros ->].
  - intros r [= H]. by eapply ratio_of_Some.
Qed.

Lemma _blinking_ratio_short (lm : landmarks) (points : list nat) :
  (length points < 6)%nat -> _blinking_ratio lm points = Raise IndexError.
Proof.
  intros H. unfold _blinking_ratio, item, part.
  do 6 (destruct points as [| ? points];
        [cbn [lookup list_lookup rbind];
         repeat (destruct (lm !! _); cbn [lookup list_lookup rbind]; try done);
         done |]).
  cbn [length] in H. lia.
Qed.

Lemma _blinking_ratio_outcome (lm : landmarks) (points : list nat) :
  (exists ratio, _blinking_ratio lm points = Ok ratio)
  \/ _blinking_ratio lm points = Raise IndexError.
Proof.
  destruct (le_lt_dec 6 (length points)) as [Hlen | Hlen];
    [| right; by apply _blinking_ratio_short].
  do 6 (destruct points as [| ? points]; [cbn [length] in Hlen; lia |]).
  destruct (selects_or_not lm [n; n0; n1; n2; n3; n4]) as [[ps Hsel] | Hno].
  - destruct (selects_six _ _ _ _ _ _ _ _ Hsel)
      as (p0 & p1 & p2 & p3 & p4 & p5 & -> & _).
    left. eexists.
    exact (_blinking_ratio_selects lm n n0 n1 n2 n3 n4 _ _ _ _ _ _ Hsel).
  - right. exact (_blinking_ratio_raises lm n n0 n1 n2 n3 n4 Hno).
Qed.

(** X3: the ratio is computed exactly when the list of indices has at least
    six entries and each of the first six is an index of the landmark set;
    in every other case the computation raises [IndexError]. *)
Theorem _blinking_ratio_raises_iff (lm : landmarks) (points : list nat) :
  ((exists ratio, _blinking_ratio lm points = Ok ratio)
   <-> (6 <= length points)%nat
       /\ forall k i, (k < 6)%nat -> points !! k = Some i -> (i < length lm)%nat)
  /\ ((forall ratio, _blinking_ratio lm points <> Ok ratio)
      -> _blinking_ratio lm points = Raise IndexError).
Proof.
  split; [| destruct (_blinking_ratio_outcome lm points) as [[r Hr] | Hr];
            [intros H; by destruct (H r) | done]].
  destruct (le_lt_dec 6 (length points)) as [Hlen | Hlen].
  2:{ rewrite (_blinking_ratio_short _ _ Hlen). split; [by intros [? ?] | lia]. }
  do 6 (destruct points as [| ? points]; [cbn [length] in Hlen; lia |]).
  clear Hlen.
  destruct (selects_or_not lm [n; n0; n1; n2; n3; n4]) as [[ps Hsel] | Hno].
  - destruct (selects_six _ _ _ _ _ _ _ _ Hsel)
      as (p0 & p1 & p2 & p3 & p4 & p5 & -> & E0 & E1 & E2 & E3 & E4 & E5).
    assert (_blinking_ratio lm (n :: n0 :: n1 :: n2 :: n3 :: n4 :: points)
            = Ok (ratio_of p0 p1 p2 p3 p5 p4)) as ->.
    { rewrite <- (_blinking_ratio_selects lm n n0 n1 n2 n3 n4 _ _ _ _ _ _ Hsel).
      reflexivity. }
    split; [intros _ | by eauto]. split; [cbn [length]; lia |].
    intros k i Hk Hi.
    do 6 (destruct k as [| k];
          [injection Hi as <-; by eapply lookup_lt_Some |]).
    lia.
  - assert (_blinking_ratio lm (n :: n0 :: n1 :: n2 :: n3 :: n4 :: points)
            = Raise IndexError) as ->.
    { rewrite <- (_blinking_ratio_raises lm n n0 n1 n2 n3 n4 Hno). reflexivity. }
    split; [by intros [? ?] |]. intros [_ H]. exfalso.
    destruct (parts_exist lm (length lm) n ltac:(lia) (H 0%nat n ltac:(lia) eq_refl)) as [p0 E0].
    destruct (parts_exist lm (length lm) n0 ltac:(lia) (H 1%nat n0 ltac:(lia) eq_refl)) as [p1 E1].
    destruct (parts_exist lm (length lm) n1 ltac:(lia) (H 2%nat n1 ltac:(lia) eq_refl)) as [p2 E2].
    destruct (parts_exist lm (length lm) n2 ltac:(lia) (H 3%nat n2 ltac:(lia) eq_refl)) as [p3 E3].
    destruct (parts_exist lm (length lm) n3 ltac:(lia) (H 4%nat n3 ltac:(lia) eq_refl)) as [p4 E4].
    destruct (parts_exist lm (length lm) n4 ltac:(lia) (H 5%nat n4 ltac:(lia) eq_refl)) as [p5 E5].
    apply (Hno [p0; p1; p2; p3; p4; p5]). unfold selects. by repeat constructor.
Qed.

Lemma ratio_of_sym (p0 p1 p2 p3 p4 p5 : point) :
  ratio_of p3 p2 p1 p0 p5 p4 = ratio_of p0 p1 p2 p3 p4 p5
  /\ ratio_of p0 p4 p5 p3 p1 p2 = ratio_of p0 p1 p2 p3 p4 p5.
Proof.
  unfold ratio_of. split.
  - by rewrite (distance_sym (position p3)), (_middle_point_comm p2 p1),
         (_middle_point_comm p5 p4).
  - by rewrite (distance_sym (_middle_point p4 p5)).
Qed.

Lemma selects_perm6 (lm : landmarks) (i0 i1 i2 i3 i4 i5 : nat)
    (p0 p1 p2 p3 p4 p5 : point) :
  selects lm [i0; i1; i2; i3; i4; i5] [p0; p1; p2; p3; p4; p5] ->
  selects lm [i3; i2; i1; i0; i5; i4] [p3; p2; p1; p0; p5; p4]
  /\ selects lm [i0; i5; i4; i3; i2; i1] [p0; p5; p4; p3; p2; p1].
Proof.
  intros H. apply selects_six in H
    as (? & ? & ? & ? & ? & ? & [= <- <- <- <- <- <-] & E0 & E1 & E2 & E3 & E4 & E5).
  unfold selects. split; by repeat constructor.
Qed.

(** X4: the ratio does not depend on the direction in which the contour is
    listed: the contour read from the other corner, and the contour with
    upper and lower lid exchanged, give the same result, an [IndexError]
    included. *)
Theorem _blinking_ratio_symmetric (lm : landmarks) (i0 i1 i2 i3 i4 i5 : nat) :
  _blinking_ratio lm [i3; i2; i1; i0; i5; i4]
  = _blinking_ratio lm [i0; i1; i2; i3; i4; i5]
  /\ _blinking_ratio lm [i0; i5; i4; i3; i2; i1]
     = _blinking_ratio lm [i0; i1; i2; i3; i4; i5].
Proof.
  destruct (selects_or_not lm [i0; i1; i2; i3; i4; i5]) as [[ps Hsel] | Hno].
  - destruct (selects_six _ _ _ _ _ _ _ _ Hsel)
      as (p0 & p1 & p2 & p3 & p4 & p5 & -> & _).
    destruct (selects_perm6 _ _ _ _ _ _ _ _ _ _ _ _ _ Hsel) as [H1 H2].
    rewrite (_blinking_ratio_selects _ _ _ _ _ _ _ _ _ _ _ _ _ Hsel),
            (_blinking_ratio_selects _ _ _ _ _ _ _ _ _ _ _ _ _ H1),
            (_blinking_ratio_selects _ _ _ _ _ _ _ _ _ _ _ _ _ H2).
    destruct (ratio_of_sym p0 p1 p2 p3 p5 p4) as [S1 S2].
    split; f_equal.
    + exact S1.
    + exact S2.
  - rewrite (_blinking_ratio_raises _ _ _ _ _ _ _ Hno).
    split; apply _blinking_ratio_raises; intros ps Hps;
      destruct (selects_six _ _ _ _ _ _ _ _ Hps)
        as (q0 & q1 & q2 & q3 & q4 & q5 & -> & _);
      destruct (selects_perm6 _ _ _ _ _ _ _ _ _ _ _ _ _ Hps) as [H1 H2].
    + by apply (Hno _ H1).
    + by apply (Hno _ H2).
Qed.

Lemma quot2_translate (s d : Z) :
  0 <= s -> 0 <= s + 2 * d -> Z.quot (s + 2 * d) 2 = Z.quot s 2 + d.
Proof.
  intros H1 H2. rewrite !Z.quot_div_nonneg by lia.
  replace (s + 2 * d) with (s + d * 2) by lia.
  by rewrite Z.div_add by lia.
Qed.

Lemma _middle_point_translate (dx dy : Z) (p q : point) :
  nonnegative p /\ float_exact p -> nonnegative q /\ float_exact q ->
  nonnegative (translate dx dy p) /\ float_exact (translate dx dy p) ->
  nonnegative (translate dx dy q) /\ float_exact (translate dx dy q) ->
  _middle_point (translate dx dy p) (translate dx dy q)
  = (fst (_middle_point p q) + dx, snd (_middle_point p q) + dy).
Proof.
  intros [Hp Fp] [Hq Fq] [Hp' Fp'] [Hq' Fq'].
  rewrite (_middle_point_exact _ _ Fp Fq), (_middle_point_exact _ _ Fp' Fq').
  revert Hp Hq Hp' Hq'. clear.
  unfold nonnegative, translate. cbn [x y fst snd].
  intros [? ?] [? ?] [? ?] [? ?].
  replace (x p + dx + (x q + dx)) with (x p + x q + 2 * dx) by lia.
  replace (y p + dy + (y q + dy)) with (y p + y q + 2 * dy) by lia.
  by rewrite !quot2_translate by lia.
Qed.

Lemma distance_translate (dx dy : Z) (p q : Z * Z) :
  distance (fst p + dx, snd p + dy) (fst q + dx, snd q + dy) = distance p q.
Proof.
  unfold distance. cbn [fst snd]. rewrite !plus_IZR. f_equal. ring.
Qed.

Lemma ratio_of_translate (dx dy : Z) (p0 p1 p2 p3 p4 p5 : point) :
  Forall (fun p => nonnegative p /\ float_exact p) [p1; p2; p4; p5] ->
  Forall (fun p => nonnegative p /\ float_exact p)
         (translate dx dy <$> [p1; p2; p4; p5]) ->
  ratio_of (translate dx dy p0) (translate dx dy p1) (translate dx dy p2)
           (translate dx dy p3) (translate dx dy p4) (translate dx dy p5)
  = ratio_of p0 p1 p2 p3 p4 p5.
Proof.
  intros H H'. cbn [fmap list_fmap] in H'.
  repeat match goal with
         | H : Forall _ (_ :: _) |- _ => inversion H; clear H; subst
         | H : Forall _ [] |- _ => clear H
         end.
  unfold ratio_of. rewrite !_middle_point_translate by assumption.
  rewrite distance_translate.
  change (position (translate dx dy p0))
    with (fst (position p0) + dx, snd (position p0) + dy).
  change (position (translate dx dy p3))
    with (fst (position p3) + dx, snd (position p3) + dy).
  by rewrite distance_translate.
Qed.

(** X5: moving every landmark by the same offset leaves the result of the
    ratio computation unchanged, as long as the coordinates are non-negative
    and below 2^52 before and after the move. *)
Theorem _blinking_ratio_translation (dx dy : Z) (lm : landmarks)
    (points : list nat) :
  Forall (fun p => nonnegative p /\ float_exact p) lm ->
  Forall (fun p => nonnegative p /\ float_exact p) (translate dx dy <$> lm) ->
  _blinking_ratio (translate dx dy <$> lm) points = _blinking_ratio lm points.
Proof.
  intros Hlm Hlm'.
  destruct (le_lt_dec 6 (length points)) as [Hlen | Hlen];
    [| by rewrite !_blinking_ratio_short].
  do 6 (destruct points as [| ? points]; [cbn [length] in Hlen; lia |]).
  clear Hlen.
  assert (forall l, _blinking_ratio l (n :: n0 :: n1 :: n2 :: n3 :: n4 :: points)
                    = _blinking_ratio l [n; n0; n1; n2; n3; n4]) as E by done.
  rewrite !E. clear E.
  assert (forall ps, selects lm [n; n0; n1; n2; n3; n4] ps ->
                     selects (translate dx dy <$> lm) [n; n0; n1; n2; n3; n4]
                             (translate dx dy <$> ps)) as Hfwd.
  { intros ps Hps. unfold selects in *.
    apply Forall2_fmap_r. eapply Forall2_impl; [exact Hps |].
    cbn. intros i p Hp. by rewrite list_lookup_fmap, Hp. }
  destruct (selects_or_not lm [n; n0; n1; n2; n3; n4]) as [[ps Hsel] | Hno].
  - pose proof (Hfwd _ Hsel) as Hsel'.
    destruct (selects_six _ _ _ _ _ _ _ _ Hsel)
      as (p0 & p1 & p2 & p3 & p4 & p5 & -> & E0 & E1 & E2 & E3 & E4 & E5).
    cbn [fmap list_fmap] in Hsel'.
    rewrite (_blinking_ratio_selects _ _ _ _ _ _ _ _ _ _ _ _ _ Hsel),
            (_blinking_ratio_selects _ _ _ _ _ _ _ _ _ _ _ _ _ Hsel').
    f_equal. rewrite Forall_forall in Hlm, Hlm'.
    apply ratio_of_translate.
    + repeat constructor; apply Hlm; by eapply list_elem_of_lookup_2.
    + cbn [fmap list_fmap].
      repeat constructor; apply Hlm'; apply list_elem_of_fmap_2;
        by eapply list_elem_of_lookup_2.
  - rewrite (_blinking_ratio_raises _ _ _ _ _ _ _ Hno).
    apply _blinking_ratio_raises. intros ps Hps. unfold selects in Hps.
    destruct (selects_six _ _ _ _ _ _ _ _ Hps)
      as (q0 & q1 & q2 & q3 & q4 & q5 & -> & E0 & E1 & E2 & E3 & E4 & E5).
    rewrite list_lookup_fmap in E0, E1, E2, E3, E4, E5.
    destruct (lm !! n) as [p0 |] eqn:F0; [| done].
    destruct (lm !! n0) as [p1 |] eqn:F1; [| done].
    destruct (lm !! n1) as [p2 |] eqn:F2; [| done].
    destruct (lm !! n2) as [p3 |] eqn:F3; [| done].
    destruct (lm !! n3) as [p4 |] eqn:F4; [| done].
    destruct (lm !! n4) as [p5 |] eqn:F5; [| done].
    apply (Hno [p0; p1; p2; p3; p4; p5]). unfold selects. by repeat constructor.
Qed.

(** ** Slices, once more *)

Lemma slice_within (n a b : Z) :
  0 <= n -> (fst (slice n a b) + snd (slice n a b) <= Z.to_nat n)%nat.
Proof.
  intros Hn. unfold slice, clip_index. cbn [fst snd].
  destruct (Z.ltb_spec a 0), (Z.ltb_spec b 0); lia.
Qed.

Lemma slice_exact (n a b : Z) :
  0 <= a -> a <= b -> b <= n -> slice n a b = (Z.to_nat a, Z.to_nat (b - a)).
Proof.
  intros Ha Hab Hb. unfold slice, clip_index.
  destruct (Z.ltb_spec a 0); [lia |]. destruct (Z.ltb_spec b 0); [lia |].
  by rewrite !Z.min_l by lia.
Qed.

Lemma slice_wrapped (n a b : Z) :
  a < 0 -> 0 <= b -> b <= n + a -> snd (slice n a b) = 0%nat.
Proof.
  intros Ha Hb Hab. unfold slice, clip_index. cbn [snd].
  destruct (Z.ltb_spec a 0); [| lia]. destruct (Z.ltb_spec b 0); lia.
Qed.

Lemma to_int32_range (z : Z) : in_int32 (to_int32 z).
Proof.
  unfold in_int32, to_int32.
  pose proof (Z.mod_pos_bound (z + 2 ^ 31) (2 ^ 32) ltac:(lia)). lia.
Qed.

Lemma region_of_raises (lm : landmarks) (points : list nat) (i : nat) :
  In i points -> (length lm <= i)%nat -> region_of lm points = Raise IndexError.
Proof.
  intros Hin Hi. unfold region_of.
  induction points as [| j points IH]; [by destruct Hin |].
  cbn [rmap]. unfold part at 1.
  destruct (lm !! j) as [p |] eqn:E; [| done]. cbn [rbind].
  destruct Hin as [-> | Hin].
  - apply lookup_lt_Some in E. lia.
  - by rewrite (IH Hin).
Qed.

Section IsolationFacts.

Context {C T P : Type}.
Variable cv2_fillPoly : ndarray -> list (Z * Z) -> list Z -> ndarray.
Variable cv2_bitwise_not : ndarray -> ndarray -> ndarray -> ndarray.

Local Abbreviation masked := (masked_frame cv2_fillPoly cv2_bitwise_not).
Local Abbreviation buffers := (isolation_buffers cv2_fillPoly cv2_bitwise_not).
Local Abbreviation isolate :=
  (_isolate (C := C) (T := T) (P := P) cv2_fillPoly cv2_bitwise_not).

(** X6: when one of the indices is past the last landmark, the isolation
    raises [IndexError] before anything else happens: no buffer is allocated
    and the store, the calibration and the call log are as they were. *)
Theorem _isolate_missing_landmark (self : Eye P) (f : loc) (lm : landmarks)
    (points : list nat) (i : nat) (w : world C T) :
  In i points -> (length lm <= i)%nat ->
  isolate self f lm points w = (Raise IndexError, w).
Proof.
  intros Hin Hi. unfold _isolate, bind, lift.
  by rewrite (region_of_raises _ _ _ Hin Hi).
Qed.

(** X7: on a frame of one 8-bit channel, a successful isolation allocates
    exactly three buffers and writes no buffer that existed before; the
    cropped frame is a view on the last of the three, so it never shares
    memory with the caller's frame. It calls no collaborator and leaves the
    fields [pupil] and [blinking] alone. *)
Theorem _isolate_allocates_three (self : Eye P) (f : loc) (lm : landmarks)
    (points : list nat) (ps : list point) (w : world C T) :
  selects lm points ps -> ps <> [] ->
  (f < length (store w))%nat ->
  single_channel_uint8 (read (store w) f) = true ->
  exists eye w' v,
    isolate self f lm points w = (Ok eye, w')
    /\ length (store w') = (length (store w) + 3)%nat
    /\ (forall l, (l < length (store w))%nat -> store w' !! l = store w !! l)
    /\ frame eye = Some v /\ buf v = (length (store w) + 2)%nat /\ buf v <> f
    /\ calibration w' = calibration w /\ calls w' = calls w
    /\ pupil eye = pupil self /\ blinking eye = blinking self.
Proof.
  intros Hsel Hps Hf _.
  set (region := map int32_position ps).
  assert (region <> []) as Hregion by (by destruct ps).
  destruct (column_min_exists (map fst region)) as [lo_x Hlx]; [by destruct region |].
  destruct (column_max_exists (map fst region)) as [hi_x Hhx]; [by destruct region |].
  destruct (column_min_exists (map snd region)) as [lo_y Hly]; [by destruct region |].
  destruct (column_max_exists (map snd region)) as [hi_y Hhy]; [by destruct region |].
  pose proof (region_of_selects _ _ _ Hsel) as Hr. fold region in Hr.
  rewrite (_isolate_spec cv2_fillPoly cv2_bitwise_not self f lm points region
             lo_x hi_x lo_y hi_y w) by assumption.
  do 3 eexists. split; [reflexivity |].
  cbn [store calibration calls frame pupil blinking].
  unfold isolation_buffers, slice_view. cbn [shape buf].
  rewrite length_app. cbn [length].
  split; [reflexivity |]. split; [intros l Hl; by rewrite lookup_app_l |].
  repeat (split; [cbn [buf]; (reflexivity || lia) |]). reflexivity.
Qed.

(** X8: whatever the landmarks are, the cropped frame lies within the masked
    frame: its rows and columns are rows and columns of the buffer behind it. *)
Theorem crop_within_frame (self : Eye P) (f : loc) (lm : landmarks)
    (points : list nat) (ps : list point) (w : world C T) :
  selects lm points ps -> ps <> [] ->
  (f < length (store w))%nat ->
  exists eye w' v,
    isolate self f lm points w = (Ok eye, w')
    /\ frame eye = Some v
    /\ Z.of_nat (row0 v + nrows v) <= fst (shape (read (store w') (buf v)))
    /\ Z.of_nat (col0 v + ncols v) <= snd (shape (read (store w') (buf v))).
Proof.
  intros Hsel Hps Hf.
  set (region := map int32_position ps).
  assert (region <> []) as Hregion by (by destruct ps).
  destruct (column_min_exists (map fst region)) as [lo_x Hlx]; [by destruct region |].
  destruct (column_max_exists (map fst region)) as [hi_x Hhx]; [by destruct region |].
  destruct (column_min_exists (map snd region)) as [lo_y Hly]; [by destruct region |].
  destruct (column_max_exists (map snd region)) as [hi_y Hhy]; [by destruct region |].
  pose proof (region_of_selects _ _ _ Hsel) as Hr. fold region in Hr.
  rewrite (_isolate_spec cv2_fillPoly cv2_bitwise_not self f lm points region
             lo_x hi_x lo_y hi_y w) by assumption.
  do 3 eexists. split; [reflexivity |]. cbn [frame store].
  split; [reflexivity |].
  unfold isolation_buffers, slice_view. cbn [shape buf row0 nrows col0 ncols].
  rewrite read_buffers. cbn [shape fst snd].
  set (a := masked_frame cv2_fillPoly cv2_bitwise_not (read (store w) f) region).
  split.
  - pose proof (slice_within (Z.of_nat (length a)) (lo_y - 5) (hi_y + 5)). lia.
  - pose proof (slice_within match a with [] => 0 | r :: _ => Z.of_nat (length r) end
                             (lo_x - 5) (hi_x + 5)).
    destruct a; lia.
Qed.

End IsolationFacts.

Lemma is_min_le_is_max (lo hi : Z) (l : list Z) : is_min lo l -> is_max hi l -> lo <= hi.
Proof.
  intros [Hin _] [_ Hall]. rewrite Forall_forall in Hall.
  apply Hall. by apply list_elem_of_In.
Qed.

Lemma is_min_le (lo : Z) (l : list Z) (z : Z) : is_min lo l -> In z l -> lo <= z.
Proof.
  intros [_ Hall] Hz. rewrite Forall_forall in Hall.
  apply Hall. by apply list_elem_of_In.
Qed.

Lemma is_max_ge (hi : Z) (l : list Z) (z : Z) : is_max hi l -> In z l -> z <= hi.
Proof.
  intros [_ Hall] Hz. rewrite Forall_forall in Hall.
  apply Hall. by apply list_elem_of_In.
Qed.

Section CropFacts.

Context {C T P : Type}.
Variable cv2_fillPoly : ndarray -> list (Z * Z) -> list Z -> ndarray.
Variable cv2_bitwise_not : ndarray -> ndarray -> ndarray -> ndarray.

Local Abbreviation masked := (masked_frame cv2_fillPoly cv2_bitwise_not).
Local Abbreviation isolate :=
  (_isolate (C := C) (T := T) (P := P) cv2_fillPoly cv2_bitwise_not).

(** The view of the isolation, for a masked frame of known shape. *)
Lemma _isolate_view (self : Eye P) (f : loc) (lm : landmarks)
    (points : list nat) (ps : list point)
    (min_x max_x min_y max_y height width : Z) (w : world C T) :
  selects lm points ps ->
  let region := map int32_position ps in
  is_min min_x (map fst region) -> is_max max_x (map fst region) ->
  is_min min_y (map snd region) -> is_max max_y (map snd region) ->
  (f < length (store w))%nat ->
  shape (masked (read (store w) f) region) = (height, width) ->
  exists eye w',
    isolate self f lm points w = (Ok eye, w')
    /\ landmark_points eye = Some region
    /\ origin eye = Some (min_x - 5, min_y - 5)
    /\ frame eye
       = Some (View (length (store w) + 2)
                    (fst (slice height (min_y - 5) (max_y + 5)))
                    (snd (slice height (min_y - 5) (max_y + 5)))
                    (fst (slice width (min_x - 5) (max_x + 5)))
                    (snd (slice width (min_x - 5) (max_x + 5))))
    /\ center eye
       = Some (IZR (Z.of_nat (snd (slice width (min_x - 5) (max_x + 5)))) / 2,
               IZR (Z.of_nat (snd (slice height (min_y - 5) (max_y + 5)))) / 2)%R
    /\ read (store w') (length (store w) + 2) = masked (read (store w) f) region.
Proof.
  intros Hsel region Hlx Hhx Hly Hhy Hf Hshape.
  erewrite _isolate_spec by (try apply region_of_selects; eassumption).
  fold region. do 2 eexists. split; [reflexivity |].
  cbn [landmark_points origin frame center store].
  unfold slice_view, center_of. rewrite Hshape. cbn [fst snd ncols nrows].
  do 4 (split; [reflexivity |]).
  unfold isolation_buffers. cbn [shape]. apply read_buffers.
Qed.

(** X9: when the bounding box expanded by the margin lies inside the masked
    frame, the crop starts at row min_y - 5 and column min_x - 5, has
    max_y - min_y + 10 rows and max_x - min_x + 10 columns, and the center is
    ((max_x - min_x) / 2 + 5, (max_y - min_y) / 2 + 5), halves included. *)
Theorem crop_size_inside_frame (self : Eye P) (f : loc) (lm : landmarks)
    (points : list nat) (ps : list point)
    (min_x max_x min_y max_y height width : Z) (w : world C T) :
  selects lm points ps ->
  let region := map int32_position ps in
  is_min min_x (map fst region) -> is_max max_x (map fst region) ->
  is_min min_y (map snd region) -> is_max max_y (map snd region) ->
  (f < length (store w))%nat ->
  shape (masked (read (store w) f) region) = (height, width) ->
  0 <= min_x - 5 -> max_x + 5 <= width ->
  0 <= min_y - 5 -> max_y + 5 <= height ->
  exists eye w' v,
    isolate self f lm points w = (Ok eye, w')
    /\ frame eye = Some v
    /\ Z.of_nat (row0 v) = min_y - 5 /\ Z.of_nat (col0 v) = min_x - 5
    /\ Z.of_nat (nrows v) = max_y - min_y + 10
    /\ Z.of_nat (ncols v) = max_x - min_x + 10
    /\ center eye
       = Some (IZR (max_x - min_x) / 2 + 5, IZR (max_y - min_y) / 2 + 5)%R.
Proof.
  intros Hsel region Hlx Hhx Hly Hhy Hf Hshape Hx0 Hx1 Hy0 Hy1.
  pose proof (is_min_le_is_max _ _ _ Hlx Hhx) as Hxx.
  pose proof (is_min_le_is_max _ _ _ Hly Hhy) as Hyy.
  destruct (_isolate_view self f lm points ps _ _ _ _ _ _ w
              Hsel Hlx Hhx Hly Hhy Hf Hshape)
    as (eye & w' & E & _ & _ & Hv & Hc & _).
  rewrite !slice_exact in Hv, Hc by lia. cbn [fst snd] in Hv, Hc.
  exists eye, w'. eexists. split; [exact E |]. split; [exact Hv |].
  cbn [row0 col0 nrows ncols].
  repeat (split; [lia |]).
  rewrite Hc. rewrite !Z2Nat.id by lia.
  replace (max_x + 5 - (min_x - 5)) with (max_x - min_x + 10) by lia.
  replace (max_y + 5 - (min_y - 5)) with (max_y - min_y + 10) by lia.
  rewrite !plus_IZR. do 2 f_equal; lra.
Qed.

(** X10: when the bounding box expanded by the margin lies inside the masked
    frame, every landmark point of the eye, taken relative to the origin,
    lies in the crop and keeps 5 pixels from its border. *)
Theorem landmark_points_inside_crop (self : Eye P) (f : loc) (lm : landmarks)
    (points : list nat) (ps : list point)
    (min_x max_x min_y max_y height width : Z) (w : world C T) :
  selects lm points ps ->
  let region := map int32_position ps in
  is_min min_x (map fst region) -> is_max max_x (map fst region) ->
  is_min min_y (map snd region) -> is_max max_y (map snd region) ->
  (f < length (store w))%nat ->
  shape (masked (read (store w) f) region) = (height, width) ->
  0 <= min_x - 5 -> max_x + 5 <= width ->
  0 <= min_y - 5 -> max_y + 5 <= height ->
  exists eye w' v o lps,
    isolate self f lm points w = (Ok eye, w')
    /\ frame eye = Some v /\ origin eye = Some o
    /\ landmark_points eye = Some lps
    /\ forall q, In q lps ->
         5 <= fst q - fst o <= Z.of_nat (ncols v) - 5
         /\ 5 <= snd q - snd o <= Z.of_nat (nrows v) - 5.
Proof.
  intros Hsel region Hlx Hhx Hly Hhy Hf Hshape Hx0 Hx1 Hy0 Hy1.
  pose proof (is_min_le_is_max _ _ _ Hlx Hhx) as Hxx.
  pose proof (is_min_le_is_max _ _ _ Hly Hhy) as Hyy.
  destruct (_isolate_view self f lm points ps _ _ _ _ _ _ w
              Hsel Hlx Hhx Hly Hhy Hf Hshape)
    as (eye & w' & E & Hl & Ho & Hv & _ & _).
  rewrite !slice_exact in Hv by lia. cbn [fst snd] in Hv.
  exists eye, w'. do 3 eexists. split; [exact E |].
  split; [exact Hv |]. split; [exact Ho |]. split; [exact Hl |].
  intros q Hq. cbn [fst snd ncols nrows].
  pose proof (is_min_le _ _ (fst q) Hlx (in_map fst _ _ Hq)).
  pose proof (is_max_ge _ _ (fst q) Hhx (in_map fst _ _ Hq)).
  pose proof (is_min_le _ _ (snd q) Hly (in_map snd _ _ Hq)).
  pose proof (is_max_ge _ _ (snd q) Hhy (in_map snd _ _ Hq)).
  lia.
Qed.

(** X11: when the expanded box starts left of the frame (min_x < 5) and ends
    no further right than the wrapped start, the crop has no column; likewise
    with no row when it starts above the frame. In both cases the cropped
    frame holds no pixel, while the origin is still (min_x - 5, min_y - 5).
    The four bounds of the expanded box are taken to be 32-bit values. *)
Theorem crop_empty_at_near_border (self : Eye P) (f : loc) (lm : landmarks)
    (points : list nat) (ps : list point)
    (min_x max_x min_y max_y height width : Z) (w : world C T) :
  selects lm points ps ->
  let region := map int32_position ps in
  is_min min_x (map fst region) -> is_max max_x (map fst region) ->
  is_min min_y (map snd region) -> is_max max_y (map snd region) ->
  (f < length (store w))%nat ->
  shape (masked (read (store w) f) region) = (height, width) ->
  in_int32 (min_x - 5) -> in_int32 (max_x + 5) ->
  in_int32 (min_y - 5) -> in_int32 (max_y + 5) ->
  (min_x - 5 < 0 /\ 0 <= max_x + 5 <= width + (min_x - 5))
  \/ (min_y - 5 < 0 /\ 0 <= max_y + 5 <= height + (min_y - 5)) ->
  exists eye w' v,
    isolate self f lm points w = (Ok eye, w')
    /\ frame eye = Some v
    /\ origin eye = Some (min_x - 5, min_y - 5)
    /\ (ncols v = 0%nat \/ nrows v = 0%nat)
    /\ concat (view_pixels (store w') v) = [].
Proof.
  intros Hsel region Hlx Hhx Hly Hhy Hf Hshape _ _ _ _ Hwrap.
  destruct (_isolate_view self f lm points ps _ _ _ _ _ _ w
              Hsel Hlx Hhx Hly Hhy Hf Hshape)
    as (eye & w' & E & _ & Ho & Hv & _ & Hread).
  exists eye, w'. eexists. split; [exact E |]. split; [exact Hv |].
  split; [exact Ho |]. cbn [ncols nrows].
  assert (snd (slice width (min_x - 5) (max_x + 5)) = 0%nat
          \/ snd (slice height (min_y - 5) (max_y + 5)) = 0%nat) as Hzero.
  { destruct Hwrap as [[? [? ?]] | [? [? ?]]];
      [left | right]; by apply slice_wrapped. }
  split; [exact Hzero |].
  unfold view_pixels, crop. cbn [buf row0 nrows col0 ncols].
  destruct Hzero as [-> | ->]; [| done].
  cbn [take]. induction (take _ _) as [| r l IH]; [done | exact IH].
Qed.

End CropFacts.

Lemma contour_selects_needed (lm : landmarks) (side : Z) :
  side = 0 \/ side = 1 -> (landmarks_needed side <= length lm)%nat ->
  exists points p0 p1 p2 p3 p4 p5,
    contour side points /\ selects lm points [p0; p1; p2; p3; p4; p5].
Proof.
  intros Hside Hlen.
  assert (exists points, contour side points
                         /\ Forall (fun i => (i < length lm)%nat) points)
    as (points & Hc & Hall).
  { destruct Hside as [-> | ->]; cbn in Hlen.
    - exists LEFT_EYE_POINTS. split; [by left |].
      unfold LEFT_EYE_POINTS. repeat constructor; lia.
    - exists RIGHT_EYE_POINTS. split; [by right |].
      unfold RIGHT_EYE_POINTS. repeat constructor; lia. }
  destruct (selects_exists lm points Hall) as [ps Hps].
  assert (exists p0 p1 p2 p3 p4 p5, ps = [p0; p1; p2; p3; p4; p5])
    as (p0 & p1 & p2 & p3 & p4 & p5 & ->).
  { destruct Hc as [[_ ->] | [_ ->]];
      destruct (selects_six _ _ _ _ _ _ _ _ Hps)
        as (p0 & p1 & p2 & p3 & p4 & p5 & -> & _); by eauto 7. }
  by exists points, p0, p1, p2, p3, p4, p5.
Qed.

Lemma contour_not_selects (lm : landmarks) (side : Z) (points : list nat) :
  contour side points -> (length lm < landmarks_needed side)%nat ->
  forall ps, ~ selects lm points ps.
Proof.
  intros Hc Hlen ps Hps.
  destruct Hc as [[-> ->] | [-> ->]]; cbn in Hlen;
    destruct (selects_six _ _ _ _ _ _ _ _ Hps)
      as (p0 & p1 & p2 & p3 & p4 & p5 & _ & _ & _ & _ & _ & _ & E5);
    apply lookup_lt_Some in E5; lia.
Qed.

Section AnalysisFacts.

Context {C T P : Type}.
Context {calibration_manager : Calibration C T}.
Variable cv2_fillPoly : ndarray -> list (Z * Z) -> list Z -> ndarray.
Variable cv2_bitwise_not : ndarray -> ndarray -> ndarray -> ndarray.
Variable Pupil : heap -> option view -> T -> P * heap.

Local Abbreviation buffers := (isolation_buffers cv2_fillPoly cv2_bitwise_not).
Local Abbreviation analyze_ :=
  (_analyze (C := C) (T := T) cv2_fillPoly cv2_bitwise_not Pupil).

(** X12: the analysis of the left eye succeeds exactly when the landmark set
    has at least 42 points, that of the right eye exactly when it has at
    least 48; with fewer it raises [IndexError] and has touched nothing: no
    buffer allocated, no collaborator called. *)
Theorem _analyze_needs_landmarks (self : Eye P) (f : loc) (lm : landmarks)
    (side : Z) (w : world C T) :
  side = 0 \/ side = 1 ->
  (f < length (store w))%nat ->
  ((exists eye w', analyze_ self f lm side w = (Ok eye, w'))
   <-> (landmarks_needed side <= length lm)%nat)
  /\ ((length lm < landmarks_needed side)%nat
      -> analyze_ self f lm side w = (Raise IndexError, w)).
Proof.
  intros Hside Hf.
  assert ((length lm < landmarks_needed side)%nat
          -> analyze_ self f lm side w = (Raise IndexError, w)) as Hshort.
  { intros Hlen.
    assert (exists points, contour side points) as [points Hc].
    { destruct Hside as [-> | ->];
        [exists LEFT_EYE_POINTS; by left | exists RIGHT_EYE_POINTS; by right]. }
    apply (_analyze_raises _ _ _ _ _ _ _ points _ Hc).
    by apply (contour_not_selects _ side). }
  split; [| exact Hshort]. split.
  - intros (eye & w' & E).
    destruct (le_lt_dec (landmarks_needed side) (length lm)) as [H | H]; [exact H |].
    rewrite (Hshort H) in E. discriminate.
  - intros Hlen.
    destruct (contour_selects_needed lm side Hside Hlen)
      as (points & p0 & p1 & p2 & p3 & p4 & p5 & Hc & Hsel).
    destruct (_analyze_valid cv2_fillPoly cv2_bitwise_not Pupil
                self f lm side points _ _ _ _ _ _ w Hc Hsel Hf)
      as (v & o & _ & E).
    cbv zeta in E. rewrite E. by do 2 eexists.
Qed.

(** X13: for a valid side the outcome of the analysis does not depend on what
    the fields of the object held before: every field is overwritten. *)
Theorem _analyze_forgets_self (self self' : Eye P) (f : loc) (lm : landmarks)
    (side : Z) (w : world C T) :
  side = 0 \/ side = 1 ->
  (f < length (store w))%nat ->
  analyze_ self f lm side w = analyze_ self' f lm side w.
Proof.
  intros Hside Hf.
  assert (exists points, contour side points) as [points Hc].
  { destruct Hside as [-> | ->];
      [exists LEFT_EYE_POINTS; by left | exists RIGHT_EYE_POINTS; by right]. }
  destruct (selects_or_not lm points) as [[ps Hsel] | Hno].
  - assert (exists p0 p1 p2 p3 p4 p5, ps = [p0; p1; p2; p3; p4; p5])
      as (p0 & p1 & p2 & p3 & p4 & p5 & ->).
    { destruct Hc as [[_ ->] | [_ ->]];
        destruct (selects_six _ _ _ _ _ _ _ _ Hsel)
          as (p0 & p1 & p2 & p3 & p4 & p5 & -> & _); by eauto 7. }
    set (region := map int32_position [p0; p1; p2; p3; p4; p5]).
    destruct (column_min_exists (map fst region) ltac:(done)) as [lo_x Hlx].
    destruct (column_max_exists (map fst region) ltac:(done)) as [hi_x Hhx].
    destruct (column_min_exists (map snd region) ltac:(done)) as [lo_y Hly].
    destruct (column_max_exists (map snd region) ltac:(done)) as [hi_y Hhy].
    unfold _analyze.
    destruct Hc as [[-> ->] | [-> ->]]; cbn [Z.eqb Pos.eqb];
      unfold LEFT_EYE_POINTS, RIGHT_EYE_POINTS in *;
      by rewrite !(analyze_points_spec cv2_fillPoly cv2_bitwise_not Pupil
                     _ f lm _ _ _ _ _ _ _ p0 p1 p2 p3 p4 p5
                     lo_x hi_x lo_y hi_y w Hsel Hlx Hhx Hly Hhy Hf).
  - by rewrite !(_analyze_raises _ _ _ _ _ _ _ points _ Hc Hno).
Qed.

(** X14: the collaborators are called in a fixed order. When [is_complete()]
    answers true the calls are [is_complete], [threshold], [Pupil] and the
    calibration state is what it was; when it answers false they are
    [is_complete], [evaluate], [threshold], [Pupil], and the calibration
    state is the one [evaluate] returned, which is also the one [threshold]
    is read from. *)
Theorem _analyze_call_sequence (self : Eye P) (f : loc) (lm : landmarks)
    (side : Z) (w : world C T) :
  side = 0 \/ side = 1 ->
  (landmarks_needed side <= length lm)%nat ->
  (f < length (store w))%nat ->
  exists eye w' h,
    analyze_ self f lm side w = (Ok eye, w')
    /\ (is_complete (calibration w) = true ->
        calibration w' = calibration w
        /\ calls w' = calls w ++ [CallIsComplete; CallThreshold side;
                                  CallPupil (frame eye)
                                            (threshold side (calibration w))])
    /\ (is_complete (calibration w) = false ->
        calibration w' = fst (evaluate h (frame eye) side (calibration w))
        /\ calls w' = calls w ++ [CallIsComplete; CallEvaluate (frame eye) side;
                                  CallThreshold side;
                                  CallPupil (frame eye)
                                            (threshold side (calibration w'))]).
Proof.
  intros Hside Hlen Hf.
  destruct (contour_selects_needed lm side Hside Hlen)
    as (points & p0 & p1 & p2 & p3 & p4 & p5 & Hc & Hsel).
  destruct (_analyze_valid cv2_fillPoly cv2_bitwise_not Pupil
              self f lm side points _ _ _ _ _ _ w Hc Hsel Hf)
    as (v & o & _ & E).
  cbv zeta in E. rewrite E. do 3 eexists. split; [reflexivity |].
  cbn [calibration calls frame]. unfold warm_up, calls_of.
  split; intros ->; cbn [fst snd app]; split; reflexivity.
Qed.

(** The store after the analysis of a valid side, given collaborators that
    keep to the buffer they are handed and free nothing. *)
Lemma _analyze_keeps_store (self : Eye P) (f : loc) (lm : landmarks)
    (side : Z) (w : world C T) :
  side = 0 \/ side = 1 ->
  (landmarks_needed side <= length lm)%nat ->
  (f < length (store w))%nat ->
  keeps_other_buffers (fun h v (a : Z * C) => evaluate h v (fst a) (snd a)) ->
  keeps_other_buffers Pupil ->
  never_shrinks (fun h v (a : Z * C) => evaluate h v (fst a) (snd a)) ->
  never_shrinks Pupil ->
  exists eye w' v,
    analyze_ self f lm side w = (Ok eye, w')
    /\ frame eye = Some v
    /\ buf v = (length (store w) + 2)%nat
    /\ (length (store w) + 3 <= length (store w'))%nat
    /\ forall l, (l < length (store w))%nat -> store w' !! l = store w !! l.
Proof.
  intros Hside Hlen Hf Hev Hpu Sev Spu.
  destruct (contour_selects_needed lm side Hside Hlen)
    as (points & p0 & p1 & p2 & p3 & p4 & p5 & Hc & Hsel).
  destruct (_analyze_valid cv2_fillPoly cv2_bitwise_not Pupil
              self f lm side points _ _ _ _ _ _ w Hc Hsel Hf)
    as (v & o & Hbuf & E).
  cbv zeta in E. rewrite E. do 3 eexists. split; [reflexivity |].
  cbn [frame store]. split; [reflexivity |]. split; [exact Hbuf |].
  set (h1 := store w ++ _).
  assert (length h1 = length (store w) + 3)%nat as Hlen1.
  { subst h1. rewrite length_app. unfold isolation_buffers. cbn [shape length]. lia. }
  set (cal := warm_up h1 (Some v) side (calibration w)).
  assert ((length h1 <= length (snd cal))%nat
          /\ forall l, (l < length (store w))%nat -> snd cal !! l = h1 !! l)
    as [Hlen2 Hcal].
  { subst cal. unfold warm_up. destruct (is_complete _); [done |]. split.
    - apply (Sev h1 (Some v) (side, calibration w)).
    - intros l Hl. apply (Hev h1 (Some v) (side, calibration w)); [lia |].
      cbn. rewrite Hbuf. intros [= ?]. lia. }
  split.
  - pose proof (Spu (snd cal) (Some v) (threshold side (fst cal))). lia.
  - intros l Hl. rewrite Hpu.
    + rewrite (Hcal l Hl). subst h1. by rewrite lookup_app_l.
    + lia.
    + cbn. rewrite Hbuf. intros [= ?]. lia.
Qed.

(** X15: when the left eye is analysed and then the right eye, on the same
    frame, the two cropped frames live in different buffers, neither of them
    the caller's frame, and the second analysis does not change the pixels
    of the first crop. *)
Theorem second_eye_leaves_first_intact (self self' : Eye P) (f : loc)
    (lm : landmarks) (w : world C T) :
  (48 <= length lm)%nat ->
  (f < length (store w))%nat ->
  keeps_other_buffers (fun h v (a : Z * C) => evaluate h v (fst a) (snd a)) ->
  keeps_other_buffers Pupil ->
  never_shrinks (fun h v (a : Z * C) => evaluate h v (fst a) (snd a)) ->
  never_shrinks Pupil ->
  exists eye_left w1 eye_right w2 v_left v_right,
    analyze_ self f lm 0 w = (Ok eye_left, w1)
    /\ analyze_ self' f lm 1 w1 = (Ok eye_right, w2)
    /\ frame eye_left = Some v_left /\ frame eye_right = Some v_right
    /\ buf v_left <> buf v_right /\ buf v_left <> f /\ buf v_right <> f
    /\ view_pixels (store w2) v_left = view_pixels (store w1) v_left.
Proof.
  intros Hlen Hf Hev Hpu Sev Spu.
  destruct (_analyze_keeps_store self f lm 0 w)
    as (e1 & w1 & v1 & E1 & F1 & B1 & L1 & K1);
    [by left | cbn; lia | assumption ..|].
  destruct (_analyze_keeps_store self' f lm 1 w1)
    as (e2 & w2 & v2 & E2 & F2 & B2 & L2 & K2);
    [by right | cbn; lia | lia | assumption ..|].
  exists e1, w1, e2, w2, v1, v2.
  repeat (split; [assumption || lia |]).
  unfold view_pixels, read. rewrite K2 by lia. reflexivity.
Qed.

(** X16: after the analysis of a valid side the landmark points are six
    positions whose coordinates are [np.int32] values; they are the
    coordinates of the selected landmarks whenever those fit in 32 bits. *)
Theorem landmark_points_are_int32 (self : Eye P) (f : loc) (lm : landmarks)
    (side : Z) (first : nat) (w : world C T) :
  side = 0 /\ first = 36%nat \/ side = 1 /\ first = 42%nat ->
  (landmarks_needed side <= length lm)%nat ->
  (f < length (store w))%nat ->
  exists eye w' lps,
    analyze_ self f lm side w = (Ok eye, w')
    /\ landmark_points eye = Some lps
    /\ length lps = 6%nat
    /\ Forall (fun q => in_int32 (fst q) /\ in_int32 (snd q)) lps
    /\ (Forall (fun p => in_int32 (x p) /\ in_int32 (y p)) (take 6 (drop first lm))
        -> lps = map position (take 6 (drop first lm))).
Proof.
  intros Hside Hlen Hf.
  destruct (contour_selects_needed lm side ltac:(tauto) Hlen)
    as (points & p0 & p1 & p2 & p3 & p4 & p5 & Hc & Hsel).
  destruct (_analyze_valid cv2_fillPoly cv2_bitwise_not Pupil
              self f lm side points _ _ _ _ _ _ w Hc Hsel Hf)
    as (v & o & _ & E).
  cbv zeta in E. rewrite E. do 3 eexists. split; [reflexivity |].
  cbn [landmark_points]. split; [reflexivity |]. split; [reflexivity |].
  assert (take 6 (drop first lm) = [p0; p1; p2; p3; p4; p5]) as ->.
  { destruct Hside as [[-> ->] | [-> ->]], Hc as [[? ->] | [? ->]];
      try discriminate; by apply take_drop_six. }
  split.
  - cbn [map]. repeat constructor; apply to_int32_range.
  - intros Hfit. cbn [map].
    repeat match goal with
           | H : Forall _ (_ :: _) |- _ => inversion H; clear H; subst
           end.
    repeat match goal with
           | H : in_int32 _ /\ in_int32 _ |- _ => destruct H
           end.
    by rewrite !int32_position_id.
Qed.

End AnalysisFacts.

(** * Further properties of [example.py] *)

(** X17: the loop shows every pass up to and including the first one whose
    key is 27 (Escape) and nothing after it; as long as no such key arrives
    it shows every pass. *)
Theorem main_stops_at_escape {Coords : Type} (str : Coords -> string)
    (before : list (Example.Gaze Coords * Z)) :
  Forall (fun pass => snd pass <> 27) before ->
  Example.main str before
  = map (fun pass => Example.overlays str (fst pass)) before
  /\ forall gaze after,
       Example.main str (before ++ (gaze, 27) :: after)
       = map (fun pass => Example.overlays str (fst pass))
             (before ++ [(gaze, 27)]).
Proof.
  induction 1 as [| [g key] before Hkey _ [IH1 IH2]].
  - split; [reflexivity |]. intros gaze after. reflexivity.
  - cbn [snd] in Hkey. cbn [app Example.main map fst].
    destruct (Z.eqb_spec key 27); [done |].
    split; [by rewrite IH1 |]. intros gaze after. by rewrite IH2.
Qed.

(** * The further properties on concrete inputs *)

Lemma _middle_point_between_witness :
  (Z.min 3 4 <= fst (_middle_point (Point 3 (-3)) (Point 4 (-4))) <= Z.max 3 4
   /\ Z.min (-3) (-4) <= snd (_middle_point (Point 3 (-3)) (Point 4 (-4)))
      <= Z.max (-3) (-4))
  /\ Z.abs (2 * fst (_middle_point (Point 3 (-3)) (Point 4 (-4))) - (3 + 4)) <= 1
  /\ Z.abs (2 * snd (_middle_point (Point 3 (-3)) (Point 4 (-4))) - (-3 + -4)) <= 1.
Proof.
  apply (_middle_point_between (Point 3 (-3)) (Point 4 (-4))).
  - split; cbn; lia.
  - split; cbn; lia.
Defined.

Lemma main_stops_at_escape_witness :
  Example.main (fun _ : unit => "None"%string)
               [(Example.mkGaze true false false false tt tt, -1);
                (Example.mkGaze false true false false tt tt, 13)]
  = map (fun pass => Example.overlays (fun _ : unit => "None"%string) (fst pass))
        [(Example.mkGaze true false false false tt tt, -1);
         (Example.mkGaze false true false false tt tt, 13)]
  /\ forall gaze after,
       Example.main (fun _ : unit => "None"%string)
                    ([(Example.mkGaze true false false false tt tt, -1);
                      (Example.mkGaze false true false false tt tt, 13)]
                     ++ (gaze, 27) :: after)
       = map (fun pass => Example.overlays (fun _ : unit => "None"%string) (fst pass))
             ([(Example.mkGaze true false false false tt tt, -1);
               (Example.mkGaze false true false false tt tt, 13)]
              ++ [(gaze, 27)]).
Proof.
  apply (main_stops_at_escape (fun _ : unit => "None"%string)).
  repeat constructor; cbn; lia.
Defined.

Lemma _blinking_ratio_cases_witness :
  (_blinking_ratio (face tilted_eye scenario_eye) [36; 37; 38; 39; 40; 41]%nat
   = Ok None
   <-> _middle_point (Point 34 16) (Point 38 16)
       = _middle_point (Point 38 24) (Point 34 24))
  /\ (forall r,
        _blinking_ratio (face tilted_eye scenario_eye) [36; 37; 38; 39; 40; 41]%nat
        = Ok (Some r) ->
        (0 <= r)%R
        /\ (r = 0%R <-> position (Point 30 20) = position (Point 42 25))).
Proof.
  apply (_blinking_ratio_cases (face tilted_eye scenario_eye)).
  repeat constructor.
Defined.

Lemma _blinking_ratio_translation_witness :
  _blinking_ratio (translate 3 2 <$> face scenario_eye (mirrored_eye 90))
                  LEFT_EYE_POINTS
  = _blinking_ratio (face scenario_eye (mirrored_eye 90)) LEFT_EYE_POINTS.
Proof.
  apply (_blinking_ratio_translation 3 2
           (face scenario_eye (mirrored_eye 90)) LEFT_EYE_POINTS).
  - cbn. repeat (constructor; [split; split; cbn; lia |]). constructor.
  - cbn. repeat (constructor; [split; split; cbn; lia |]). constructor.
Defined.

Lemma _isolate_missing_landmark_witness :
  sample_isolate new_Eye 0%nat (take 40 (face scenario_eye (mirrored_eye 90)))
                 LEFT_EYE_POINTS (sample_world no_reading)
  = (Raise IndexError, sample_world no_reading).
Proof.
  apply (_isolate_missing_landmark (C := CalibrationState) (T := option Z)
           sample_fillPoly sample_bitwise_not new_Eye 0%nat
           (take 40 (face scenario_eye (mirrored_eye 90))) LEFT_EYE_POINTS
           41%nat (sample_world no_reading)).
  - cbn. tauto.
  - cbn. lia.
Defined.

Lemma _isolate_allocates_three_witness :
  exists eye w' v,
    sample_isolate new_Eye 0%nat (face scenario_eye (mirrored_eye 90))
                   LEFT_EYE_POINTS (sample_world no_reading) = (Ok eye, w')
    /\ length (store w') = (length (store (sample_world (T := option Z) no_reading)) + 3)%nat
    /\ (forall l, (l < length (store (sample_world (T := option Z) no_reading)))%nat ->
                  store w' !! l = store (sample_world (T := option Z) no_reading) !! l)
    /\ frame eye = Some v
    /\ buf v = (length (store (sample_world (T := option Z) no_reading)) + 2)%nat
    /\ buf v <> 0%nat
    /\ calibration w' = calibration (sample_world (T := option Z) no_reading)
    /\ calls w' = calls (sample_world (T := option Z) no_reading)
    /\ pupil eye = pupil (new_Eye (P := option Z))
    /\ blinking eye = blinking (new_Eye (P := option Z)).
Proof.
  apply (_isolate_allocates_three (C := CalibrationState) (T := option Z)
           sample_fillPoly sample_bitwise_not new_Eye 0%nat
           (face scenario_eye (mirrored_eye 90)) LEFT_EYE_POINTS scenario_eye
           (sample_world no_reading)).
  - repeat constructor.
  - discriminate.
  - cbn. lia.
  - vm_compute. reflexivity.
Defined.

Lemma crop_within_frame_witness :
  exists eye w' v,
    sample_isolate new_Eye 0%nat (face border_eye scenario_eye)
                   LEFT_EYE_POINTS (sample_world no_reading) = (Ok eye, w')
    /\ frame eye = Some v
    /\ Z.of_nat (row0 v + nrows v) <= fst (shape (read (store w') (buf v)))
    /\ Z.of_nat (col0 v + ncols v) <= snd (shape (read (store w') (buf v))).
Proof.
  apply (crop_within_frame (C := CalibrationState) (T := option Z)
           sample_fillPoly sample_bitwise_not new_Eye 0%nat
           (face border_eye scenario_eye) LEFT_EYE_POINTS border_eye
           (sample_world no_reading)).
  - repeat constructor.
  - discriminate.
  - cbn. lia.
Defined.

Lemma crop_size_inside_frame_witness :
  exists eye w' v,
    sample_isolate new_Eye 0%nat (face scenario_eye (mirrored_eye 90))
                   LEFT_EYE_POINTS (sample_world no_reading) = (Ok eye, w')
    /\ frame eye = Some v
    /\ Z.of_nat (row0 v) = 5 - 5 /\ Z.of_nat (col0 v) = 36 - 5
    /\ Z.of_nat (nrows v) = 14 - 5 + 10
    /\ Z.of_nat (ncols v) = 48 - 36 + 10
    /\ center eye = Some (IZR (48 - 36) / 2 + 5, IZR (14 - 5) / 2 + 5)%R.
Proof.
  apply (crop_size_inside_frame (C := CalibrationState) (T := option Z)
           sample_fillPoly sample_bitwise_not new_Eye 0%nat
           (face scenario_eye (mirrored_eye 90)) LEFT_EYE_POINTS scenario_eye
           36 48 5 14 40 60 (sample_world no_reading)).
  - repeat constructor.
  - split; [vm_compute; auto 10 | repeat constructor; vm_compute; congruence].
  - split; [vm_compute; auto 10 | repeat constructor; vm_compute; congruence].
  - split; [vm_compute; auto 10 | repeat constructor; vm_compute; congruence].
  - split; [vm_compute; auto 10 | repeat constructor; vm_compute; congruence].
  - cbn. lia.
  - vm_compute. reflexivity.
  - lia.
  - lia.
  - lia.
  - lia.
Defined.

Lemma landmark_points_inside_crop_witness :
  exists eye w' v o lps,
    sample_isolate new_Eye 0%nat (face scenario_eye (mirrored_eye 90))
                   LEFT_EYE_POINTS (sample_world no_reading) = (Ok eye, w')
    /\ frame eye = Some v /\ origin eye = Some o
    /\ landmark_points eye = Some lps
    /\ forall q, In q lps ->
         5 <= fst q - fst o <= Z.of_nat (ncols v) - 5
         /\ 5 <= snd q - snd o <= Z.of_nat (nrows v) - 5.
Proof.
  apply (landmark_points_inside_crop (C := CalibrationState) (T := option Z)
           sample_fillPoly sample_bitwise_not new_Eye 0%nat
           (face scenario_eye (mirrored_eye 90)) LEFT_EYE_POINTS scenario_eye
           36 48 5 14 40 60 (sample_world no_reading)).
  - repeat constructor.
  - split; [vm_compute; auto 10 | repeat constructor; vm_compute; congruence].
  - split; [vm_compute; auto 10 | repeat constructor; vm_compute; congruence].
  - split; [vm_compute; auto 10 | repeat constructor; vm_compute; congruence].
  - split; [vm_compute; auto 10 | repeat constructor; vm_compute; congruence].
  - cbn. lia.
  - vm_compute. reflexivity.
  - lia.
  - lia.
  - lia.
  - lia.
Defined.

Lemma crop_empty_at_near_border_witness :
  exists eye w' v,
    sample_isolate new_Eye 0%nat (face border_eye scenario_eye)
                   LEFT_EYE_POINTS (sample_world no_reading) = (Ok eye, w')
    /\ frame eye = Some v
    /\ origin eye = Some (3 - 5, 16 - 5)
    /\ (ncols v = 0%nat \/ nrows v = 0%nat)
    /\ concat (view_pixels (store w') v) = [].
Proof.
  apply (crop_empty_at_near_border (C := CalibrationState) (T := option Z)
           sample_fillPoly sample_bitwise_not new_Eye 0%nat
           (face border_eye scenario_eye) LEFT_EYE_POINTS border_eye
           3 15 16 24 40 60 (sample_world no_reading)).
  - repeat constructor.
  - split; [vm_compute; auto 10 | repeat constructor; vm_compute; congruence].
  - split; [vm_compute; auto 10 | repeat constructor; vm_compute; congruence].
  - split; [vm_compute; auto 10 | repeat constructor; vm_compute; congruence].
  - split; [vm_compute; auto 10 | repeat constructor; vm_compute; congruence].
  - cbn. lia.
  - vm_compute. reflexivity.
  - unfold in_int32. lia.
  - unfold in_int32. lia.
  - unfold in_int32. lia.
  - unfold in_int32. lia.
  - left. lia.
Defined.

Lemma _analyze_needs_landmarks_witness :
  ((exists eye w',
       sample_analyze new_Eye 0%nat (take 42 (face scenario_eye (mirrored_eye 90)))
                      0 (sample_world no_reading) = (Ok eye, w'))
   <-> (landmarks_needed 0
        <= length (take 42 (face scenario_eye (mirrored_eye 90))))%nat)
  /\ ((length (take 42 (face scenario_eye (mirrored_eye 90)))
       < landmarks_needed 0)%nat
      -> sample_analyze new_Eye 0%nat
                        (take 42 (face scenario_eye (mirrored_eye 90)))
                        0 (sample_world no_reading)
         = (Raise IndexError, sample_world no_reading)).
Proof.
  apply (_analyze_needs_landmarks (calibration_manager := sample_calibration)
           sample_fillPoly sample_bitwise_not sample_Pupil new_Eye 0%nat
           (take 42 (face scenario_eye (mirrored_eye 90))) 0
           (sample_world no_reading)).
  - by left.
  - cbn. lia.
Defined.

Lemma _analyze_forgets_self_witness :
  sample_analyze new_Eye 0%nat (face scenario_eye (mirrored_eye 90)) 1
                 (sample_world no_reading)
  = sample_analyze (mkEye None (Some (1, 2)) None (Some (Some 7)) None (Some None))
                   0%nat (face scenario_eye (mirrored_eye 90)) 1
                   (sample_world no_reading).
Proof.
  apply (_analyze_forgets_self (calibration_manager := sample_calibration)
           sample_fillPoly sample_bitwise_not sample_Pupil).
  - by right.
  - cbn. lia.
Defined.

Lemma _analyze_call_sequence_witness :
  exists eye w' h,
    sample_analyze new_Eye 0%nat (face scenario_eye (mirrored_eye 90)) 0
                   (sample_world left_done) = (Ok eye, w')
    /\ (is_complete (Calibration := sample_calibration)
                    (calibration (sample_world (T := option Z) left_done)) = true ->
        calibration w' = calibration (sample_world (T := option Z) left_done)
        /\ calls w'
           = calls (sample_world left_done)
             ++ [CallIsComplete; CallThreshold 0;
                 CallPupil (frame eye)
                           (threshold (Calibration := sample_calibration) 0
                              (calibration (sample_world (T := option Z) left_done)))])
    /\ (is_complete (Calibration := sample_calibration)
                    (calibration (sample_world (T := option Z) left_done)) = false ->
        calibration w'
        = fst (evaluate (Calibration := sample_calibration) h (frame eye) 0
                        (calibration (sample_world (T := option Z) left_done)))
        /\ calls w'
           = calls (sample_world left_done)
             ++ [CallIsComplete; CallEvaluate (frame eye) 0; CallThreshold 0;
                 CallPupil (frame eye)
                           (threshold (Calibration := sample_calibration) 0
                                      (calibration w'))]).
Proof.
  apply (_analyze_call_sequence (calibration_manager := sample_calibration)
           sample_fillPoly sample_bitwise_not sample_Pupil new_Eye 0%nat
           (face scenario_eye (mirrored_eye 90)) 0 (sample_world left_done)).
  - by left.
  - cbn. lia.
  - cbn. lia.
Defined.

Lemma second_eye_leaves_first_intact_witness :
  exists eye_left w1 eye_right w2 v_left v_right,
    sample_analyze new_Eye 0%nat (face scenario_eye (mirrored_eye 90)) 0
                   (sample_world no_reading) = (Ok eye_left, w1)
    /\ sample_analyze new_Eye 0%nat (face scenario_eye (mirrored_eye 90)) 1 w1
       = (Ok eye_right, w2)
    /\ frame eye_left = Some v_left /\ frame eye_right = Some v_right
    /\ buf v_left <> buf v_right /\ buf v_left <> 0%nat /\ buf v_right <> 0%nat
    /\ view_pixels (store w2) v_left = view_pixels (store w1) v_left.
Proof.
  apply (second_eye_leaves_first_intact
           (calibration_manager := sample_calibration)
           sample_fillPoly sample_bitwise_not sample_Pupil new_Eye new_Eye 0%nat
           (face scenario_eye (mirrored_eye 90)) (sample_world no_reading)).
  - cbn. lia.
  - cbn. lia.
  - intros h v a l _ _. cbn. unfold spec_evaluate.
    destruct (v ≫= _); reflexivity.
  - intros h v a l _ _. reflexivity.
  - intros h v a. cbn. unfold spec_evaluate.
    destruct (v ≫= _); cbn; lia.
  - intros h v a. cbn. lia.
Defined.

Lemma landmark_points_are_int32_witness :
  exists eye w' lps,
    sample_analyze new_Eye 0%nat (face scenario_eye (mirrored_eye 90)) 0
                   (sample_world no_reading) = (Ok eye, w')
    /\ landmark_points eye = Some lps
    /\ length lps = 6%nat
    /\ Forall (fun q => in_int32 (fst q) /\ in_int32 (snd q)) lps
    /\ (Forall (fun p => in_int32 (x p) /\ in_int32 (y p))
               (take 6 (drop 36 (face scenario_eye (mirrored_eye 90))))
        -> lps = map position (take 6 (drop 36 (face scenario_eye (mirrored_eye 90))))).
Proof.
  apply (landmark_points_are_int32 (calibration_manager := sample_calibration)
           sample_fillPoly sample_bitwise_not sample_Pupil new_Eye 0%nat
           (face scenario_eye (mirrored_eye 90)) 0 36%nat
           (sample_world no_reading)).
  - left. split; reflexivity.
  - cbn. lia.
  - cbn. lia.
Defined.
